(** * libperfmon: the counter-session lifecycle, verified against its source

    A shallow embedding of [perfmon.c] (the session manager built on Linux
    [perf_event_open]) together with a small model of the part of the
    operating system the library talks to: the table of open perf events,
    the monotonic clock, the allocator and the log of the system calls the
    library issues.

    Layout:
    - [Env]     : the operating-system model and the library's state monad;
    - [Double]  : the C [double], as IEEE-754 binary64;
    - [Perfmon] : the functions of [perfmon.c], statement by statement;
    - the vocabulary the statements are written in, and concrete worlds;
    - lemmas about the loops and about [perfmon_init], then the properties
      of the session state machine, each also run on a concrete world. *)

From Stdlib Require Import ZArith Bool Lia.
From Stdlib Require Import Floats.SpecFloat.
From stdpp Require Import base strings pretty gmap list.

Set Default Proof Using "Type".
Local Open Scope Z_scope.

(* ===================================================================== *)
(** ** The environment                                                    *)
(* ===================================================================== *)

Module Env.

(** [struct timespec]. *)
Record timespec := mk_timespec { tv_sec : Z; tv_nsec : Z }.

(** The fields of [struct perf_event_attr] the library sets (every other
    field is zeroed by [memset]; [size] is always the size of the struct). *)
Record perf_event_attr := mk_attr {
  pe_type : Z;
  pe_config : Z;
  pe_disabled : bool;
  pe_exclude_kernel : bool;
  pe_exclude_hv : bool;
  pe_inherit : bool
}.

(** One call of [perf_event_open(attr, pid, cpu, group_fd, flags)]. *)
Record open_request := mk_request {
  rq_attr : perf_event_attr;
  rq_pid : Z;
  rq_cpu : Z;
  rq_group_fd : Z;
  rq_flags : Z
}.

(** A live perf event behind a file descriptor: its current 64-bit count
    and whether it is counting. *)
Record perf_event := mk_event {
  ev_attr : perf_event_attr;
  ev_count : Z;
  ev_active : bool
}.

Inductive ioctl_req :=
| PERF_EVENT_IOC_ENABLE
| PERF_EVENT_IOC_DISABLE
| PERF_EVENT_IOC_RESET.

(** What the kernel answers to a [perf_event_open]. *)
Inductive open_outcome :=
| Granted
| Refused (errno : Z).

(** The system calls the library issues, as they appear in the log. *)
Inductive syscall :=
| SysCalloc (ok : bool)
| SysPerfEventOpen (rq : open_request) (ret : Z)
| SysIoctl (fd : Z) (req : ioctl_req)
| SysRead (fd : Z)
| SysClose (fd : Z)
| SysClockGettime.

(** The state the library runs in.  [os_policy n rq] is the kernel's answer
    to the [n]-th [perf_event_open] of the run when asked [rq]; it is an
    arbitrary function, so every pattern of per-kind success and failure is
    an environment.  [os_trace] is chronological (oldest call first).
    [error_msg] is the library's thread-local message buffer. *)
Record world := mk_world {
  os_events : gmap Z perf_event;
  os_next_fd : N;
  os_opens : N;
  os_policy : N -> open_request -> open_outcome;
  os_mem : bool;
  os_clock_ns : N;
  os_errno : Z;
  os_strerror : Z -> string;
  os_trace : list syscall;
  error_msg : string
}.

Definition with_events (ev : gmap Z perf_event) (w : world) : world :=
  mk_world ev (os_next_fd w) (os_opens w) (os_policy w) (os_mem w)
           (os_clock_ns w) (os_errno w) (os_strerror w) (os_trace w) (error_msg w).
Definition with_next_fd (n : N) (w : world) : world :=
  mk_world (os_events w) n (os_opens w) (os_policy w) (os_mem w)
           (os_clock_ns w) (os_errno w) (os_strerror w) (os_trace w) (error_msg w).
Definition with_opens (n : N) (w : world) : world :=
  mk_world (os_events w) (os_next_fd w) n (os_policy w) (os_mem w)
           (os_clock_ns w) (os_errno w) (os_strerror w) (os_trace w) (error_msg w).
Definition with_clock_ns (n : N) (w : world) : world :=
  mk_world (os_events w) (os_next_fd w) (os_opens w) (os_policy w) (os_mem w)
           n (os_errno w) (os_strerror w) (os_trace w) (error_msg w).
Definition with_errno (e : Z) (w : world) : world :=
  mk_world (os_events w) (os_next_fd w) (os_opens w) (os_policy w) (os_mem w)
           (os_clock_ns w) e (os_strerror w) (os_trace w) (error_msg w).
Definition with_trace (t : list syscall) (w : world) : world :=
  mk_world (os_events w) (os_next_fd w) (os_opens w) (os_policy w) (os_mem w)
           (os_clock_ns w) (os_errno w) (os_strerror w) t (error_msg w).
Definition with_error_msg (s : string) (w : world) : world :=
  mk_world (os_events w) (os_next_fd w) (os_opens w) (os_policy w) (os_mem w)
           (os_clock_ns w) (os_errno w) (os_strerror w) (os_trace w) s.

Definition logged (c : syscall) (w : world) : world :=
  with_trace (os_trace w ++ [c]) w.

(** *** The state monad of the library *)

Definition M (A : Type) : Type := world -> A * world.

Definition ret {A} (a : A) : M A := fun w => (a, w).
Definition bind {A B} (m : M A) (k : A -> M B) : M B :=
  fun w => let (a, w1) := m w in k a w1.

Declare Scope perf_scope.
Delimit Scope perf_scope with perf.
Notation "'let*' x := c 'in' k" := (bind c (fun x => k))
  (at level 10, x pattern, c at level 100, k at level 200) : perf_scope.
Notation "c ;; k" := (bind c (fun _ => k))
  (at level 100, k at level 200, right associativity) : perf_scope.
Local Open Scope perf_scope.

(** [for (i = from; i < from + n; i++) body(i);] *)
Fixpoint for_range (from n : nat) (body : nat -> M unit) : M unit :=
  match n with
  | O => ret tt
  | S n' => body from ;; for_range (S from) n' body
  end.

Definition when (b : bool) (c : M unit) : M unit :=
  if b then c else ret tt.

(** *** errno values (asm-generic/errno-base.h) *)
Definition EBADF : Z := 9.
Definition ENOMEM : Z := 12.

(** *** System calls *)

(** [calloc(1, sizeof(perfmon_context_t))]: whether memory is available is
    the environment's choice. *)
Definition sys_calloc : M bool := fun w =>
  if os_mem w then (true, logged (SysCalloc true) w)
  else (false, logged (SysCalloc false) (with_errno ENOMEM w)).

(** [syscall(__NR_perf_event_open, ...)].  A granted request creates a new
    event with count 0, counting unless [attr.disabled], behind a descriptor
    no earlier call returned; a refused one returns -1 and sets [errno]. *)
Definition sys_perf_event_open (rq : open_request) : M Z := fun w =>
  let w1 := with_opens (os_opens w + 1)%N w in
  match os_policy w (os_opens w) rq with
  | Granted =>
      let newfd := Z.of_N (os_next_fd w) in
      let ev := mk_event (rq_attr rq) 0 (negb (pe_disabled (rq_attr rq))) in
      (newfd,
       logged (SysPerfEventOpen rq newfd)
         (with_next_fd (os_next_fd w + 1)%N
            (with_events (<[newfd := ev]> (os_events w)) w1)))
  | Refused e =>
      (-1, logged (SysPerfEventOpen rq (-1)) (with_errno e w1))
  end.

Definition apply_ioctl (req : ioctl_req) (ev : perf_event) : perf_event :=
  match req with
  | PERF_EVENT_IOC_ENABLE => mk_event (ev_attr ev) (ev_count ev) true
  | PERF_EVENT_IOC_DISABLE => mk_event (ev_attr ev) (ev_count ev) false
  | PERF_EVENT_IOC_RESET => mk_event (ev_attr ev) 0 (ev_active ev)
  end.

(** [ioctl(fd, req, 0)] on a perf descriptor; [EBADF] when [fd] is not
    open. *)
Definition sys_ioctl (fd : Z) (req : ioctl_req) : M Z := fun w =>
  match os_events w !! fd with
  | Some ev =>
      (0, logged (SysIoctl fd req)
            (with_events (<[fd := apply_ioctl req ev]> (os_events w)) w))
  | None => (-1, logged (SysIoctl fd req) (with_errno EBADF w))
  end.

(** [read(fd, &buf, 8)] on a perf descriptor: the return value and the new
    content of the 8-byte buffer, whose old content is [buf]. *)
Definition sys_read (fd : Z) (buf : Z) : M (Z * Z) := fun w =>
  match os_events w !! fd with
  | Some ev => ((8, ev_count ev), logged (SysRead fd) w)
  | None => ((-1, buf), logged (SysRead fd) (with_errno EBADF w))
  end.

Definition sys_close (fd : Z) : M Z := fun w =>
  match os_events w !! fd with
  | Some _ => (0, logged (SysClose fd) (with_events (delete fd (os_events w)) w))
  | None => (-1, logged (SysClose fd) (with_errno EBADF w))
  end.

Definition NSEC_PER_SEC : N := 1000000000.

(** [clock_gettime(CLOCK_MONOTONIC, &ts)]. *)
Definition sys_clock_gettime : M timespec := fun w =>
  (mk_timespec (Z.of_N (os_clock_ns w / NSEC_PER_SEC))
               (Z.of_N (os_clock_ns w mod NSEC_PER_SEC)),
   logged SysClockGettime w).

Definition get_errno : M Z := fun w => (os_errno w, w).
Definition strerror (e : Z) : M string := fun w => (os_strerror w e, w).

(** *** The measured workload

    Between two calls of the library the process runs: every event that is
    counting advances by [delta fd] (modulo 2^64), events that are not
    counting keep their value, and [dt] nanoseconds pass. *)
Definition count_on (delta : Z -> Z) (fd : Z) (ev : perf_event) : option perf_event :=
  Some (if ev_active ev
        then mk_event (ev_attr ev) ((ev_count ev + delta fd) mod 2 ^ 64) true
        else ev).

Definition workload (delta : Z -> Z) (dt : N) (w : world) : world :=
  with_clock_ns (os_clock_ns w + dt)%N
    (with_events (map_imap (count_on delta) (os_events w)) w).

End Env.

(* ===================================================================== *)
(** ** IEEE-754 binary64, as the C [double] of the library                *)
(* ===================================================================== *)

Module Double.

Definition double : Type := spec_float.

Definition prec : Z := 53.
Definition emax : Z := 1024.

(** [(double)z] for an integer [z]: rounded to nearest, ties to even. *)
Definition of_Z (z : Z) : double := binary_normalize prec emax z 0 false.

Definition zero : double := S754_zero false.
Definition div (x y : double) : double := SFdiv prec emax x y.
Definition mul (x y : double) : double := SFmul prec emax x y.
Definition add (x y : double) : double := SFadd prec emax x y.

(** The literals [100.0] and [1e9]; both are integers below 2^53. *)
Definition d100 : double := of_Z 100.
Definition d1e9 : double := of_Z 1000000000.

End Double.

(* ===================================================================== *)
(** ** perfmon.h and perfmon.c                                            *)
(* ===================================================================== *)

Module Perfmon.
Import Env.
Local Open Scope perf_scope.

(** *** linux/perf_event.h: the constants the library names *)
Definition PERF_TYPE_HARDWARE : Z := 0.
Definition PERF_TYPE_SOFTWARE : Z := 1.
Definition PERF_TYPE_HW_CACHE : Z := 3.

Definition PERF_COUNT_HW_CPU_CYCLES : Z := 0.
Definition PERF_COUNT_HW_INSTRUCTIONS : Z := 1.
Definition PERF_COUNT_HW_CACHE_REFERENCES : Z := 2.
Definition PERF_COUNT_HW_CACHE_MISSES : Z := 3.
Definition PERF_COUNT_HW_BRANCH_INSTRUCTIONS : Z := 4.
Definition PERF_COUNT_HW_BRANCH_MISSES : Z := 5.

Definition PERF_COUNT_SW_PAGE_FAULTS : Z := 2.
Definition PERF_COUNT_SW_CONTEXT_SWITCHES : Z := 3.
Definition PERF_COUNT_SW_CPU_MIGRATIONS : Z := 4.
Definition PERF_COUNT_SW_PAGE_FAULTS_MIN : Z := 5.
Definition PERF_COUNT_SW_PAGE_FAULTS_MAJ : Z := 6.

Definition PERF_COUNT_HW_CACHE_DTLB : Z := 3.
Definition PERF_COUNT_HW_CACHE_ITLB : Z := 4.
Definition PERF_COUNT_HW_CACHE_OP_READ : Z := 0.
Definition PERF_COUNT_HW_CACHE_RESULT_MISS : Z := 1.

(** *** perfmon.h *)

(** [perfmon_counter_type_t]: the enumeration is used as an array index; a
    value of the type is any unsigned number, the named ones are 0..12. *)
Definition perfmon_counter_type_t : Type := nat.

Definition PERFMON_CYCLES : nat := 0.
Definition PERFMON_INSTRUCTIONS : nat := 1.
Definition PERFMON_BRANCHES : nat := 2.
Definition PERFMON_BRANCH_MISSES : nat := 3.
Definition PERFMON_CACHE_REFERENCES : nat := 4.
Definition PERFMON_CACHE_MISSES : nat := 5.
Definition PERFMON_DTLB_LOAD_MISSES : nat := 6.
Definition PERFMON_ITLB_MISSES : nat := 7.
Definition PERFMON_PAGE_FAULTS : nat := 8.
Definition PERFMON_MINOR_FAULTS : nat := 9.
Definition PERFMON_MAJOR_FAULTS : nat := 10.
Definition PERFMON_CONTEXT_SWITCHES : nat := 11.
Definition PERFMON_CPU_MIGRATIONS : nat := 12.
Definition PERFMON_MAX_COUNTERS : nat := 13.

Record perfmon_stats_t := mk_stats {
  cycles : Z;
  instructions : Z;
  branches : Z;
  branch_misses : Z;
  cache_references : Z;
  cache_misses : Z;
  dtlb_load_misses : Z;
  itlb_misses : Z;
  page_faults : Z;
  minor_faults : Z;
  major_faults : Z;
  context_switches : Z;
  cpu_migrations : Z;
  elapsed_time_sec : Double.double;
  insn_per_cycle : Double.double;
  branch_miss_rate : Double.double;
  cache_miss_rate : Double.double
}.

(** *** perfmon.c: types *)

Record perf_counter_t := mk_counter { fd : Z; enabled : bool }.

Record perfmon_context := mk_context {
  counters : list perf_counter_t;
  start_time : timespec;
  end_time : timespec;
  is_running : bool
}.

(** [ctx->counters[i]]; the array has [PERFMON_MAX_COUNTERS] elements and
    every access of the source is below that bound. *)
Definition counter_at (ctx : perfmon_context) (i : nat) : perf_counter_t :=
  default (mk_counter 0 false) (counters ctx !! i).

Definition set_counters (cs : list perf_counter_t) (ctx : perfmon_context) :=
  mk_context cs (start_time ctx) (end_time ctx) (is_running ctx).
(** [ctx->counters[i].fd = v;] *)
Definition set_fd (i : nat) (v : Z) (ctx : perfmon_context) :=
  set_counters (<[i := mk_counter v (enabled (counter_at ctx i))]> (counters ctx)) ctx.
(** [ctx->counters[i].enabled = b;] *)
Definition set_enabled (i : nat) (b : bool) (ctx : perfmon_context) :=
  set_counters (<[i := mk_counter (fd (counter_at ctx i)) b]> (counters ctx)) ctx.
Definition set_start_time (t : timespec) (ctx : perfmon_context) :=
  mk_context (counters ctx) t (end_time ctx) (is_running ctx).
Definition set_end_time (t : timespec) (ctx : perfmon_context) :=
  mk_context (counters ctx) (start_time ctx) t (is_running ctx).
Definition set_is_running (b : bool) (ctx : perfmon_context) :=
  mk_context (counters ctx) (start_time ctx) (end_time ctx) b.

(** What [calloc] hands back: a context of zero bytes. *)
Definition zeroed_context : perfmon_context :=
  mk_context (replicate PERFMON_MAX_COUNTERS (mk_counter 0 false))
             (mk_timespec 0 0) (mk_timespec 0 0) false.

(** *** perfmon.c: functions *)

(** [set_error]: [vsnprintf] into the 256-byte buffer keeps at most 255
    characters of the formatted message. *)
Definition set_error (formatted : string) : M unit := fun w =>
  (tt, with_error_msg (String.substring 0 255 formatted) w).

Definition perf_event_open (hw_event : perf_event_attr)
    (pid cpu group_fd flags : Z) : M Z :=
  sys_perf_event_open (mk_request hw_event pid cpu group_fd flags).

Definition setup_counter (type config : Z) : M Z :=
  let pe := mk_attr type config true false false true in
  let* f := perf_event_open pe 0 (-1) (-1) 0 in
  when (f =? -1)
    (let* e := get_errno in
     let* s := strerror e in
     set_error ("Failed to open perf event (type=" +:+ pretty type +:+
                ", config=" +:+ pretty config +:+ "): " +:+ s)) ;;
  ret f.

(** The pair of statements [perfmon_init] repeats for each kind:
    [ctx->counters[k].fd = setup_counter(type, config);
     ctx->counters[k].enabled = (ctx->counters[k].fd != -1);] *)
Definition acquire (k : nat) (type config : Z) (ctx : perfmon_context)
    : M perfmon_context :=
  let* f := setup_counter type config in
  let ctx := set_fd k f ctx in
  ret (set_enabled k (negb (fd (counter_at ctx k) =? -1)) ctx).

(** The first loop of [perfmon_init]. *)
Fixpoint clear_counters (from n : nat) (ctx : perfmon_context) : perfmon_context :=
  match n with
  | O => ctx
  | S n' =>
      clear_counters (S from) n' (set_enabled from false (set_fd from (-1) ctx))
  end.

Definition perfmon_init : M (option perfmon_context) :=
  let* ok := sys_calloc in
  if negb ok then
    let* e := get_errno in
    let* s := strerror e in
    set_error ("Failed to allocate context: " +:+ s) ;;
    ret None
  else
    let ctx := zeroed_context in
    let ctx := clear_counters 0 PERFMON_MAX_COUNTERS ctx in
    let* ctx := acquire PERFMON_CYCLES PERF_TYPE_HARDWARE PERF_COUNT_HW_CPU_CYCLES ctx in
    let* ctx := acquire PERFMON_INSTRUCTIONS PERF_TYPE_HARDWARE PERF_COUNT_HW_INSTRUCTIONS ctx in
    let* ctx := acquire PERFMON_BRANCHES PERF_TYPE_HARDWARE PERF_COUNT_HW_BRANCH_INSTRUCTIONS ctx in
    let* ctx := acquire PERFMON_BRANCH_MISSES PERF_TYPE_HARDWARE PERF_COUNT_HW_BRANCH_MISSES ctx in
    let* ctx := acquire PERFMON_CACHE_REFERENCES PERF_TYPE_HARDWARE PERF_COUNT_HW_CACHE_REFERENCES ctx in
    let* ctx := acquire PERFMON_CACHE_MISSES PERF_TYPE_HARDWARE PERF_COUNT_HW_CACHE_MISSES ctx in
    let* ctx := acquire PERFMON_PAGE_FAULTS PERF_TYPE_SOFTWARE PERF_COUNT_SW_PAGE_FAULTS ctx in
    let* ctx := acquire PERFMON_MINOR_FAULTS PERF_TYPE_SOFTWARE PERF_COUNT_SW_PAGE_FAULTS_MIN ctx in
    let* ctx := acquire PERFMON_MAJOR_FAULTS PERF_TYPE_SOFTWARE PERF_COUNT_SW_PAGE_FAULTS_MAJ ctx in
    let* ctx := acquire PERFMON_CONTEXT_SWITCHES PERF_TYPE_SOFTWARE PERF_COUNT_SW_CONTEXT_SWITCHES ctx in
    let* ctx := acquire PERFMON_CPU_MIGRATIONS PERF_TYPE_SOFTWARE PERF_COUNT_SW_CPU_MIGRATIONS ctx in
    let dtlb_config :=
      Z.lor (Z.lor PERF_COUNT_HW_CACHE_DTLB
                   (Z.shiftl PERF_COUNT_HW_CACHE_OP_READ 8))
            (Z.shiftl PERF_COUNT_HW_CACHE_RESULT_MISS 16) in
    let* ctx := acquire PERFMON_DTLB_LOAD_MISSES PERF_TYPE_HW_CACHE dtlb_config ctx in
    let itlb_config :=
      Z.lor (Z.lor PERF_COUNT_HW_CACHE_ITLB
                   (Z.shiftl PERF_COUNT_HW_CACHE_OP_READ 8))
            (Z.shiftl PERF_COUNT_HW_CACHE_RESULT_MISS 16) in
    let* ctx := acquire PERFMON_ITLB_MISSES PERF_TYPE_HW_CACHE itlb_config ctx in
    let ctx := set_is_running false ctx in
    ret (Some ctx).

(** The guard shared by the loops of start, stop and reset:
    [ctx->counters[i].enabled && ctx->counters[i].fd != -1]. *)
Definition live (c : perf_counter_t) : bool :=
  enabled c && negb (fd c =? -1).

Definition perfmon_start (ctx : option perfmon_context)
    : M (bool * option perfmon_context) :=
  match ctx with
  | None => set_error "Invalid context" ;; ret (false, None)
  | Some c =>
      if is_running c then
        set_error "Monitoring already running" ;; ret (false, Some c)
      else
        for_range 0 PERFMON_MAX_COUNTERS (fun i =>
          when (live (counter_at c i))
            (sys_ioctl (fd (counter_at c i)) PERF_EVENT_IOC_RESET ;;
             sys_ioctl (fd (counter_at c i)) PERF_EVENT_IOC_ENABLE ;;
             ret tt)) ;;
        let* now := sys_clock_gettime in
        let c := set_start_time now c in
        let c := set_is_running true c in
        ret (true, Some c)
  end.

Definition read_counter (f : Z) : M Z :=
  let count := 0 in
  if negb (f =? -1) then
    let* r := sys_read f count in
    let '(n, count) := r in
    if negb (n =? 8) then ret 0 else ret count
  else ret count.

Definition timespec_diff_sec (start end_ : timespec) : Double.double :=
  let sec := Double.of_Z (tv_sec end_ - tv_sec start) in
  let nsec := Double.div (Double.of_Z (tv_nsec end_ - tv_nsec start)) Double.d1e9 in
  Double.add sec nsec.

(** The body of [if (stats) { ... }] in [perfmon_stop]: [memset], the
    thirteen reads in the order of the source, the elapsed time and the
    derived metrics. *)
Definition fill_stats (c : perfmon_context) : M perfmon_stats_t :=
  let* v_cycles := read_counter (fd (counter_at c PERFMON_CYCLES)) in
  let* v_instructions := read_counter (fd (counter_at c PERFMON_INSTRUCTIONS)) in
  let* v_branches := read_counter (fd (counter_at c PERFMON_BRANCHES)) in
  let* v_branch_misses := read_counter (fd (counter_at c PERFMON_BRANCH_MISSES)) in
  let* v_cache_references := read_counter (fd (counter_at c PERFMON_CACHE_REFERENCES)) in
  let* v_cache_misses := read_counter (fd (counter_at c PERFMON_CACHE_MISSES)) in
  let* v_dtlb_load_misses := read_counter (fd (counter_at c PERFMON_DTLB_LOAD_MISSES)) in
  let* v_itlb_misses := read_counter (fd (counter_at c PERFMON_ITLB_MISSES)) in
  let* v_page_faults := read_counter (fd (counter_at c PERFMON_PAGE_FAULTS)) in
  let* v_minor_faults := read_counter (fd (counter_at c PERFMON_MINOR_FAULTS)) in
  let* v_major_faults := read_counter (fd (counter_at c PERFMON_MAJOR_FAULTS)) in
  let* v_context_switches := read_counter (fd (counter_at c PERFMON_CONTEXT_SWITCHES)) in
  let* v_cpu_migrations := read_counter (fd (counter_at c PERFMON_CPU_MIGRATIONS)) in
  let elapsed := timespec_diff_sec (start_time c) (end_time c) in
  let ipc :=
    if 0 <? v_cycles
    then Double.div (Double.of_Z v_instructions) (Double.of_Z v_cycles)
    else Double.zero in
  let bmr :=
    if 0 <? v_branches
    then Double.mul (Double.div (Double.of_Z v_branch_misses) (Double.of_Z v_branches))
                    Double.d100
    else Double.zero in
  let cmr :=
    if 0 <? v_cache_references
    then Double.mul (Double.div (Double.of_Z v_cache_misses)
                                (Double.of_Z v_cache_references))
                    Double.d100
    else Double.zero in
  ret (mk_stats v_cycles v_instructions v_branches v_branch_misses
                v_cache_references v_cache_misses v_dtlb_load_misses
                v_itlb_misses v_page_faults v_minor_faults v_major_faults
                v_context_switches v_cpu_migrations elapsed ipc bmr cmr).

(** [stats] is the record behind the caller's pointer ([None] for a null
    pointer); the third component of the result is that record after the
    call. *)
Definition perfmon_stop (ctx : option perfmon_context)
    (stats : option perfmon_stats_t)
    : M (bool * option perfmon_context * option perfmon_stats_t) :=
  match ctx with
  | None => set_error "Invalid context" ;; ret (false, None, stats)
  | Some c =>
      if negb (is_running c) then
        set_error "Monitoring not running" ;; ret (false, Some c, stats)
      else
        let* now := sys_clock_gettime in
        let c := set_end_time now c in
        for_range 0 PERFMON_MAX_COUNTERS (fun i =>
          when (live (counter_at c i))
            (sys_ioctl (fd (counter_at c i)) PERF_EVENT_IOC_DISABLE ;;
             ret tt)) ;;
        let* stats :=
          match stats with
          | Some _ => let* st := fill_stats c in ret (Some st)
          | None => ret None
          end in
        let c := set_is_running false c in
        ret (true, Some c, stats)
  end.

Definition perfmon_reset (ctx : option perfmon_context)
    : M (bool * option perfmon_context) :=
  match ctx with
  | None => set_error "Invalid context" ;; ret (false, None)
  | Some c =>
      for_range 0 PERFMON_MAX_COUNTERS (fun i =>
        when (live (counter_at c i))
          (sys_ioctl (fd (counter_at c i)) PERF_EVENT_IOC_RESET ;;
           ret tt)) ;;
      ret (true, Some c)
  end.

(** After [perfmon_cleanup] the context is freed: nothing is returned. *)
Definition perfmon_cleanup (ctx : option perfmon_context) : M unit :=
  match ctx with
  | None => ret tt
  | Some c =>
      for_range 0 PERFMON_MAX_COUNTERS (fun i =>
        when (negb (fd (counter_at c i) =? -1))
          (sys_close (fd (counter_at c i)) ;; ret tt))
  end.

Definition perfmon_get_error : M string := fun w => (error_msg w, w).

Definition perfmon_is_supported : M bool :=
  let pe := mk_attr PERF_TYPE_HARDWARE PERF_COUNT_HW_CPU_CYCLES true false false false in
  let* f := perf_event_open pe 0 (-1) (-1) 0 in
  if f =? -1 then ret false
  else sys_close f ;; ret true.

Definition perfmon_enable_counter (ctx : option perfmon_context)
    (type : perfmon_counter_type_t) : M (bool * option perfmon_context) :=
  match ctx with
  | None => set_error "Invalid context or counter type" ;; ret (false, None)
  | Some c =>
      if (PERFMON_MAX_COUNTERS <=? type)%nat then
        set_error "Invalid context or counter type" ;; ret (false, Some c)
      else if negb (fd (counter_at c type) =? -1) then
        ret (true, Some (set_enabled type true c))
      else ret (false, Some c)
  end.

Definition perfmon_disable_counter (ctx : option perfmon_context)
    (type : perfmon_counter_type_t) : M (bool * option perfmon_context) :=
  match ctx with
  | None => set_error "Invalid context or counter type" ;; ret (false, None)
  | Some c =>
      if (PERFMON_MAX_COUNTERS <=? type)%nat then
        set_error "Invalid context or counter type" ;; ret (false, Some c)
      else ret (true, Some (set_enabled type false c))
  end.

End Perfmon.

Import Env Perfmon.
Local Open Scope perf_scope.

(* ===================================================================== *)
(** ** Specification vocabulary                                           *)
(* ===================================================================== *)

(** The thirteen elements of [ctx->counters], in index order. *)
Definition slots (c : perfmon_context) : list perf_counter_t :=
  counter_at c <$> seq 0 PERFMON_MAX_COUNTERS.

(** The context owns a thirteen-element array. *)
Definition ctx_wf (c : perfmon_context) : Prop :=
  length (counters c) = PERFMON_MAX_COUNTERS.

(** The field of [perfmon_stats_t] that carries the raw count of kind [k]. *)
Definition raw_count (k : nat) (s : perfmon_stats_t) : Z :=
  if (k =? PERFMON_CYCLES)%nat then cycles s
  else if (k =? PERFMON_INSTRUCTIONS)%nat then instructions s
  else if (k =? PERFMON_BRANCHES)%nat then branches s
  else if (k =? PERFMON_BRANCH_MISSES)%nat then branch_misses s
  else if (k =? PERFMON_CACHE_REFERENCES)%nat then cache_references s
  else if (k =? PERFMON_CACHE_MISSES)%nat then cache_misses s
  else if (k =? PERFMON_DTLB_LOAD_MISSES)%nat then dtlb_load_misses s
  else if (k =? PERFMON_ITLB_MISSES)%nat then itlb_misses s
  else if (k =? PERFMON_PAGE_FAULTS)%nat then page_faults s
  else if (k =? PERFMON_MINOR_FAULTS)%nat then minor_faults s
  else if (k =? PERFMON_MAJOR_FAULTS)%nat then major_faults s
  else if (k =? PERFMON_CONTEXT_SWITCHES)%nat then context_switches s
  else if (k =? PERFMON_CPU_MIGRATIONS)%nat then cpu_migrations s
  else 0.

(** What [read_counter f] yields when the event table is [evs]. *)
Definition counter_value (evs : gmap Z perf_event) (f : Z) : Z :=
  if f =? -1 then 0
  else match evs !! f with
       | Some ev => ev_count ev
       | None => 0
       end.

(** A sequence of [ioctl] calls whose results are ignored. *)
Definition ioctls (calls : list (Z * ioctl_req)) (w : world) : world :=
  foldl (fun w call => snd (sys_ioctl call.1 call.2 w)) w calls.

(** The calls one loop iteration makes for slot [s] when the loop body
    issues the requests [blk] under the guard [live]. *)
Definition slot_calls (blk : list ioctl_req) (s : perf_counter_t)
    : list (Z * ioctl_req) :=
  if live s then (fun r => (fd s, r)) <$> blk else [].

Definition block_effect (blk : list ioctl_req) (ev : perf_event) : perf_event :=
  foldl (fun e r => apply_ioctl r e) ev blk.

(** Some slot of [l] passes the guard and holds descriptor [f]. *)
Definition touches (l : list perf_counter_t) (f : Z) : bool :=
  existsb (fun s => live s && (fd s =? f)) l.

Definition ioctl_entry (call : Z * ioctl_req) : syscall :=
  SysIoctl call.1 call.2.

(** Everything of the world except the event table, [errno] and the log. *)
Definition same_settings (w w' : world) : Prop :=
  os_next_fd w' = os_next_fd w ∧ os_opens w' = os_opens w ∧
  os_policy w' = os_policy w ∧ os_mem w' = os_mem w ∧
  os_clock_ns w' = os_clock_ns w ∧ os_strerror w' = os_strerror w ∧
  error_msg w' = error_msg w.

(** The log entry of reading slot [s]: [read_counter] makes no call for a
    slot without a handle. *)
Definition read_entry (s : perf_counter_t) : list syscall :=
  if fd s =? -1 then [] else [SysRead (fd s)].

(** The time [clock_gettime] reports in world [w]. *)
Definition now (w : world) : timespec := fst (sys_clock_gettime w).

Definition start_block : list ioctl_req :=
  [PERF_EVENT_IOC_RESET; PERF_EVENT_IOC_ENABLE].
Definition stop_block : list ioctl_req := [PERF_EVENT_IOC_DISABLE].
Definition reset_block : list ioctl_req := [PERF_EVENT_IOC_RESET].

(** The world in which [perfmon_stop] reads the counters. *)
Definition stopped (c : perfmon_context) (w : world) : world :=
  ioctls (slots c ≫= slot_calls stop_block) (logged SysClockGettime w).

(* ===================================================================== *)
(** ** Vocabulary of perfmon_init                                         *)
(* ===================================================================== *)

(** The request [setup_counter type config] hands to the kernel. *)
Definition request_of (type config : Z) : open_request :=
  mk_request (mk_attr type config true false false true) 0 (-1) (-1) 0.

(** The thirteen acquisitions of [perfmon_init], in the order the source
    makes them: kind, event type, event configuration. *)
Definition init_order : list (nat * Z * Z) :=
  [ (PERFMON_CYCLES, PERF_TYPE_HARDWARE, PERF_COUNT_HW_CPU_CYCLES);
    (PERFMON_INSTRUCTIONS, PERF_TYPE_HARDWARE, PERF_COUNT_HW_INSTRUCTIONS);
    (PERFMON_BRANCHES, PERF_TYPE_HARDWARE, PERF_COUNT_HW_BRANCH_INSTRUCTIONS);
    (PERFMON_BRANCH_MISSES, PERF_TYPE_HARDWARE, PERF_COUNT_HW_BRANCH_MISSES);
    (PERFMON_CACHE_REFERENCES, PERF_TYPE_HARDWARE, PERF_COUNT_HW_CACHE_REFERENCES);
    (PERFMON_CACHE_MISSES, PERF_TYPE_HARDWARE, PERF_COUNT_HW_CACHE_MISSES);
    (PERFMON_PAGE_FAULTS, PERF_TYPE_SOFTWARE, PERF_COUNT_SW_PAGE_FAULTS);
    (PERFMON_MINOR_FAULTS, PERF_TYPE_SOFTWARE, PERF_COUNT_SW_PAGE_FAULTS_MIN);
    (PERFMON_MAJOR_FAULTS, PERF_TYPE_SOFTWARE, PERF_COUNT_SW_PAGE_FAULTS_MAJ);
    (PERFMON_CONTEXT_SWITCHES, PERF_TYPE_SOFTWARE, PERF_COUNT_SW_CONTEXT_SWITCHES);
    (PERFMON_CPU_MIGRATIONS, PERF_TYPE_SOFTWARE, PERF_COUNT_SW_CPU_MIGRATIONS);
    (PERFMON_DTLB_LOAD_MISSES, PERF_TYPE_HW_CACHE,
     Z.lor (Z.lor PERF_COUNT_HW_CACHE_DTLB (Z.shiftl PERF_COUNT_HW_CACHE_OP_READ 8))
           (Z.shiftl PERF_COUNT_HW_CACHE_RESULT_MISS 16));
    (PERFMON_ITLB_MISSES, PERF_TYPE_HW_CACHE,
     Z.lor (Z.lor PERF_COUNT_HW_CACHE_ITLB (Z.shiftl PERF_COUNT_HW_CACHE_OP_READ 8))
           (Z.shiftl PERF_COUNT_HW_CACHE_RESULT_MISS 16)) ].

Fixpoint acquire_all (l : list (nat * Z * Z)) (c : perfmon_context)
    : M perfmon_context :=
  match l with
  | [] => ret c
  | (k, type, config) :: l' =>
      let* c1 := acquire k type config c in acquire_all l' c1
  end.

(** The context after the first loop of [perfmon_init]. *)
Definition cleared_context : perfmon_context :=
  clear_counters 0 PERFMON_MAX_COUNTERS zeroed_context.

(** The kernel's answer to the [j]-th request made from world [w] on. *)
Definition answer (w : world) (j : nat) (type config : Z) : open_outcome :=
  os_policy w (os_opens w + N.of_nat j)%N (request_of type config).

Definition kinds_of (l : list (nat * Z * Z)) : list nat :=
  (fun e => e.1.1) <$> l.

Definition put_slot (k : nat) (s : perf_counter_t) (c : perfmon_context) :=
  set_counters (<[k := s]> (counters c)) c.

(* ===================================================================== *)
(** ** Operations on an open session                                      *)
(* ===================================================================== *)

(** The operations a caller can apply to an open session. *)
Inductive op :=
| OpStart
| OpStop (stats : option perfmon_stats_t)
| OpReset
| OpEnable (type : perfmon_counter_type_t)
| OpDisable (type : perfmon_counter_type_t).

(** The context behind the caller's pointer after an operation. *)
Definition run_op (o : op) (c : perfmon_context) (w : world)
    : perfmon_context * world :=
  match o with
  | OpStart => let (r, w') := perfmon_start (Some c) w in (default c r.2, w')
  | OpStop st => let (r, w') := perfmon_stop (Some c) st w in (default c r.1.2, w')
  | OpReset => let (r, w') := perfmon_reset (Some c) w in (default c r.2, w')
  | OpEnable k => let (r, w') := perfmon_enable_counter (Some c) k w in (default c r.2, w')
  | OpDisable k => let (r, w') := perfmon_disable_counter (Some c) k w in (default c r.2, w')
  end.

(** A slot without a handle is not enabled. *)
Definition slot_inv (c : perfmon_context) : Prop :=
  ∀ k, (k < PERFMON_MAX_COUNTERS)%nat →
       enabled (counter_at c k) = true → fd (counter_at c k) ≠ -1.

(* ===================================================================== *)
(** ** Concrete environments                                              *)
(* ===================================================================== *)

Definition grant_all : N → open_request → open_outcome := fun _ _ => Granted.

Definition refuse_all : N → open_request → open_outcome :=
  fun _ _ => Refused 13.

(** A machine without a usable PMU: hardware and hardware-cache events are
    refused with [EACCES], software events are granted. *)
Definition software_only : N → open_request → open_outcome :=
  fun _ rq =>
    if pe_type (rq_attr rq) =? PERF_TYPE_SOFTWARE then Granted else Refused 13.

Definition demo_world (policy : N → open_request → open_outcome) (mem : bool)
    : world :=
  mk_world ∅ 3 0 policy mem 5000000000 0
    (fun e => if e =? ENOMEM then "Cannot allocate memory"
              else if e =? 13 then "Permission denied"
              else if e =? EBADF then "Bad file descriptor"
              else "Unknown error")
    [] "".

Definition blank_stats : perfmon_stats_t :=
  mk_stats 0 0 0 0 0 0 0 0 0 0 0 0 0
           Double.zero Double.zero Double.zero Double.zero.

(** The session [perfmon_init] returns in a world, and the world after. *)
Definition opened (w : world) : perfmon_context * world :=
  let (c, w') := perfmon_init w in (default zeroed_context c, w').

(** The same after a successful [perfmon_start]. *)
Definition started (w : world) : perfmon_context * world :=
  let (c, w1) := opened w in
  let (r, w2) := perfmon_start (Some c) w1 in
  (default zeroed_context r.2, w2).

(** Two measurements on one session in a world that grants every request:
    the first with every kind enabled over a workload that advances every
    counting event by 5; then cycles is disabled and a second measurement
    is taken over a workload that advances every counting event by 7.  The
    results of the five calls and the second snapshot. *)
Definition second_measurement : list bool * option perfmon_stats_t :=
  let (c0, w0) := opened (demo_world grant_all true) in
  let '((ok1, c1), w1) := perfmon_start (Some c0) w0 in
  let '((ok2, c2, _), w2) :=
    perfmon_stop c1 (Some blank_stats) (workload (fun _ => 5) 1000 w1) in
  let '((ok3, c3), w3) := perfmon_disable_counter c2 PERFMON_CYCLES w2 in
  let '((ok4, c4), w4) := perfmon_start c3 w3 in
  let '((ok5, _, st), _) :=
    perfmon_stop c4 (Some blank_stats) (workload (fun _ => 7) 1000 w4) in
  ([ok1; ok2; ok3; ok4; ok5], st).

(** A world that grants everything, one that refuses everything, one
    without a PMU, and one without memory. *)
Definition granting_world : world := demo_world grant_all true.
Definition refusing_world : world := demo_world refuse_all true.
Definition unsupported_world : world := demo_world software_only true.
Definition exhausted_world : world := demo_world grant_all false.

(** The world the support probe leaves behind on a machine without PMU. *)
Definition probed_world : world := (perfmon_is_supported unsupported_world).2.

(* ===================================================================== *)
(** ** Vocabulary of the further properties                               *)
(* ===================================================================== *)

(** The descriptors the session holds, in index order. *)
Definition handles (c : perfmon_context) : list Z :=
  filter (fun f => f ≠ -1) (fd <$> slots c).

(** Some slot of [l] holds descriptor [f]. *)
Definition holds (l : list perf_counter_t) (f : Z) : bool :=
  existsb (fun s => negb (fd s =? -1) && (fd s =? f)) l.

(** One iteration of the loop of [perfmon_cleanup] on slot [s]. *)
Definition close_step (s : perf_counter_t) (w : world) : world :=
  if fd s =? -1 then w else (sys_close (fd s) w).2.

(** No descriptor at or above the next one the kernel hands out is open. *)
Definition world_fresh (w : world) : Prop :=
  ∀ f, Z.of_N (os_next_fd w) ≤ f → os_events w !! f = None.

(** The request of the support probe. *)
Definition probe_request : open_request :=
  mk_request
    (mk_attr PERF_TYPE_HARDWARE PERF_COUNT_HW_CPU_CYCLES true false false false)
    0 (-1) (-1) 0.

(** The message [setup_counter] leaves when the kernel refuses with
    [errno = e]. *)
Definition open_failure_message (w : world) (type config e : Z) : string :=
  String.substring 0 255
    ("Failed to open perf event (type=" +:+ pretty type +:+
     ", config=" +:+ pretty config +:+ "): " +:+ os_strerror w e).

(** The message buffer holds at most 255 characters. *)
Definition msg_bounded (w : world) : Prop :=
  (String.length (error_msg w) ≤ 255)%nat.

(** The log entry of the acquisition of one kind, given the context
    [perfmon_init] returns. *)
Definition open_entry (c : perfmon_context) (e : nat * Z * Z) : syscall :=
  SysPerfEventOpen (request_of e.1.2 e.2) (fd (counter_at c e.1.1)).

(** The message in the buffer after the acquisitions [l], the first of
    which is the kernel's [j]-th request counted from world [w]: the message
    of the last refusal, or [msg] when nothing is refused. *)
Fixpoint last_diagnostic (w : world) (j : nat) (l : list (nat * Z * Z))
    (msg : string) : string :=
  match l with
  | [] => msg
  | (_, type, config) :: l' =>
      last_diagnostic w (S j) l'
        (match answer w j type config with
         | Granted => msg
         | Refused e => open_failure_message w type config e
         end)
  end.

(** The event [perfmon_init] creates for the cycles kind. *)
Definition cycles_event : perf_event :=
  mk_event (rq_attr (request_of PERF_TYPE_HARDWARE PERF_COUNT_HW_CPU_CYCLES)) 0 false.

(** The session [perfmon_init] returns in the granting world, and the
    world it leaves. *)
Definition c0 : perfmon_context := (opened granting_world).1.
Definition v0 : world := (opened granting_world).2.

(* ===================================================================== *)
(** ** The ioctl loops                                                    *)
(* ===================================================================== *)

Section Ioctls.

Lemma same_settings_refl w : same_settings w w.
Proof. by repeat split. Qed.

Lemma same_settings_trans w1 w2 w3 :
  same_settings w1 w2 → same_settings w2 w3 → same_settings w1 w3.
Proof.
  unfold same_settings. intros (?&?&?&?&?&?&?) (?&?&?&?&?&?&?).
  repeat split; congruence.
Qed.

Lemma logged_trace e w : os_trace (logged e w) = os_trace w ++ [e].
Proof. done. Qed.

Lemma logged_events e w : os_events (logged e w) = os_events w.
Proof. done. Qed.

Lemma logged_settings e w : same_settings w (logged e w).
Proof. by repeat split. Qed.

Lemma sys_ioctl_settings f r w : same_settings w (snd (sys_ioctl f r w)).
Proof. unfold sys_ioctl. destruct (os_events w !! f); by repeat split. Qed.

Lemma sys_ioctl_trace f r w :
  os_trace (snd (sys_ioctl f r w)) = os_trace w ++ [SysIoctl f r].
Proof. unfold sys_ioctl. by destruct (os_events w !! f). Qed.

Lemma sys_ioctl_lookup f r w g :
  os_events (snd (sys_ioctl f r w)) !! g =
  if decide (f = g) then apply_ioctl r <$> os_events w !! g
  else os_events w !! g.
Proof.
  unfold sys_ioctl. destruct (os_events w !! f) as [ev|] eqn:E; simpl.
  - rewrite lookup_insert. case_decide; subst; by rewrite ?E.
  - case_decide; subst; by rewrite ?E.
Qed.

Lemma ioctls_app l1 l2 w : ioctls (l1 ++ l2) w = ioctls l2 (ioctls l1 w).
Proof. apply foldl_app. Qed.

Lemma ioctls_settings l w : same_settings w (ioctls l w).
Proof.
  revert w. induction l as [|[f r] l IH]; intros w; simpl.
  - apply same_settings_refl.
  - eapply same_settings_trans; [apply (sys_ioctl_settings f r)|apply IH].
Qed.

Lemma ioctls_trace l w :
  os_trace (ioctls l w) = os_trace w ++ (ioctl_entry <$> l).
Proof.
  revert w. induction l as [|[f r] l IH]; intros w; simpl.
  - by rewrite app_nil_r.
  - rewrite IH, sys_ioctl_trace, <- app_assoc. done.
Qed.

Lemma ioctls_block_lookup blk f w g :
  os_events (ioctls ((fun r => (f, r)) <$> blk) w) !! g =
  if decide (f = g) then block_effect blk <$> os_events w !! g
  else os_events w !! g.
Proof.
  revert w. induction blk as [|r blk IH]; intros w; simpl.
  - case_decide; [|done]. by destruct (os_events w !! g).
  - rewrite IH, sys_ioctl_lookup. case_decide; [|done].
    by destruct (os_events w !! g).
Qed.

(** The event table after a guarded loop over the slots [l], when running
    the block twice on an event is the same as running it once. *)
Lemma ioctls_slots_lookup blk l w g :
  (∀ ev, block_effect blk (block_effect blk ev) = block_effect blk ev) →
  os_events (ioctls (l ≫= slot_calls blk) w) !! g =
  (fun ev => if touches l g then block_effect blk ev else ev)
    <$> os_events w !! g.
Proof.
  intros Hidem. revert w. induction l as [|s l IH]; intros w.
  - simpl. by destruct (os_events w !! g).
  - rewrite bind_cons, ioctls_app, IH. unfold slot_calls. simpl.
    destruct (live s) eqn:Hl; simpl.
    + rewrite ioctls_block_lookup. case_decide as Hf.
      * subst g. rewrite Z.eqb_refl. simpl.
        destruct (os_events w !! fd s); simpl; [|done].
        destruct (touches l (fd s)); by rewrite ?Hidem.
      * apply Z.eqb_neq in Hf. by rewrite Hf.
    + done.
Qed.

(** A guarded loop of the source is the corresponding call sequence. *)
Lemma for_range_slot_calls blk (body : nat → M unit) c from n w :
  (∀ i w, body i w = (tt, ioctls (slot_calls blk (counter_at c i)) w)) →
  for_range from n body w =
  (tt, ioctls ((counter_at c <$> seq from n) ≫= slot_calls blk) w).
Proof.
  intros Hbody. revert from w. induction n as [|n IH]; intros from w; simpl.
  - done.
  - unfold bind at 1. rewrite Hbody, IH.
    by rewrite ioctls_app.
Qed.

End Ioctls.

(* ===================================================================== *)
(** ** Reading the counters                                               *)
(* ===================================================================== *)

Section Reads.

Lemma read_counter_spec f w :
  ∃ w', read_counter f w = (counter_value (os_events w) f, w') ∧
        os_events w' = os_events w ∧ same_settings w w' ∧
        os_trace w' = os_trace w ++ (if f =? -1 then [] else [SysRead f]).
Proof.
  unfold read_counter, counter_value.
  destruct (f =? -1) eqn:Hf; simpl.
  - exists w. rewrite app_nil_r. auto using same_settings_refl.
  - unfold bind, sys_read. destruct (os_events w !! f) as [ev|]; simpl;
      eexists; (split; [reflexivity|]); by repeat split.
Qed.

Ltac step_read H :=
  match type of H with
  | context [bind (read_counter ?f) _ ?w] =>
      let w' := fresh "w" in
      let E := fresh "E" in
      let Hev := fresh "Hev" in
      let Hs := fresh "Hs" in
      let Ht := fresh "Ht" in
      destruct (read_counter_spec f w) as (w' & E & Hev & Hs & Ht);
      unfold bind at 1 in H; rewrite E in H; clear E;
      repeat match goal with
             | Hev0 : os_events w = _ |- _ => rewrite Hev0 in Hev
             | Ht0 : os_trace w = _ |- _ => rewrite Ht0 in Ht
             | Hs0 : same_settings _ w |- _ =>
                 pose proof (same_settings_trans _ _ _ Hs0 Hs); clear Hs0 Hs
             end
  end.

(** Everything [fill_stats] does, in terms of the state it starts from. *)
Lemma fill_stats_spec c w s w' :
  fill_stats c w = (s, w') →
  os_events w' = os_events w ∧ same_settings w w' ∧
  os_trace w' = os_trace w ++ (slots c ≫= read_entry) ∧
  (∀ k, (k < PERFMON_MAX_COUNTERS)%nat →
        raw_count k s = counter_value (os_events w) (fd (counter_at c k))) ∧
  elapsed_time_sec s = timespec_diff_sec (start_time c) (end_time c) ∧
  insn_per_cycle s =
    (if 0 <? cycles s
     then Double.div (Double.of_Z (instructions s)) (Double.of_Z (cycles s))
     else Double.zero) ∧
  branch_miss_rate s =
    (if 0 <? branches s
     then Double.mul (Double.div (Double.of_Z (branch_misses s))
                                 (Double.of_Z (branches s))) Double.d100
     else Double.zero) ∧
  cache_miss_rate s =
    (if 0 <? cache_references s
     then Double.mul (Double.div (Double.of_Z (cache_misses s))
                                 (Double.of_Z (cache_references s))) Double.d100
     else Double.zero).
Proof.
  intros H. unfold fill_stats in H.
  do 13 step_read H.
  unfold ret in H. injection H as <- <-.
  split; [done|]. split; [done|]. split.
  { match goal with Ht : os_trace _ = _ |- _ => rewrite Ht end.
    unfold slots, read_entry. simpl. rewrite app_nil_r, <- !app_assoc.
    reflexivity. }
  split.
  { intros k Hk. unfold PERFMON_MAX_COUNTERS in Hk.
    repeat match goal with
           | Hev : os_events _ = os_events w |- _ => rewrite ?Hev; clear Hev
           end.
    do 13 (destruct k as [|k]; [reflexivity|]). lia. }
  done.
Qed.

End Reads.

(* ===================================================================== *)
(** ** start, stop and reset as state transformers                        *)
(* ===================================================================== *)

Section Transitions.

Lemma start_block_idem ev :
  block_effect start_block (block_effect start_block ev) =
  block_effect start_block ev.
Proof. done. Qed.

Lemma stop_block_idem ev :
  block_effect stop_block (block_effect stop_block ev) =
  block_effect stop_block ev.
Proof. done. Qed.

Lemma reset_block_idem ev :
  block_effect reset_block (block_effect reset_block ev) =
  block_effect reset_block ev.
Proof. done. Qed.

Lemma bind_ignore {A B} (m : M A) (k : M B) w : (m ;; k) w = k (m w).2.
Proof. unfold bind. by destruct (m w). Qed.

Lemma now_same_settings w w' : same_settings w w' → now w' = now w.
Proof.
  intros (_&_&_&_&Hc&_). unfold now, sys_clock_gettime. simpl. by rewrite Hc.
Qed.

Lemma perfmon_start_running c w :
  is_running c = true →
  perfmon_start (Some c) w =
  ((false, Some c), with_error_msg "Monitoring already running" w).
Proof. intros Hr. unfold perfmon_start. rewrite Hr. reflexivity. Qed.

Lemma perfmon_start_idle c w :
  is_running c = false →
  perfmon_start (Some c) w =
  ((true, Some (set_is_running true (set_start_time (now w) c))),
   logged SysClockGettime (ioctls (slots c ≫= slot_calls start_block) w)).
Proof.
  intros Hr. unfold perfmon_start. rewrite Hr.
  unfold bind at 1.
  rewrite (for_range_slot_calls start_block _ c).
  - unfold bind, ret. simpl.
    change (mk_timespec _ _) with (now (ioctls (slots c ≫= slot_calls start_block) w)).
    by rewrite (now_same_settings w) by apply ioctls_settings.
  - intros i w1. unfold when, slot_calls. destruct (live (counter_at c i)); [|done].
    by rewrite !bind_ignore.
Qed.

Lemma perfmon_stop_idle c st w :
  is_running c = false →
  perfmon_stop (Some c) st w =
  ((false, Some c, st), with_error_msg "Monitoring not running" w).
Proof. intros Hr. unfold perfmon_stop. rewrite Hr. reflexivity. Qed.

Lemma perfmon_stop_running c st w :
  is_running c = true →
  perfmon_stop (Some c) st w =
  match st with
  | Some _ =>
      let (s, w2) := fill_stats (set_end_time (now w) c) (stopped c w) in
      ((true, Some (set_is_running false (set_end_time (now w) c)), Some s), w2)
  | None =>
      ((true, Some (set_is_running false (set_end_time (now w) c)), None),
       stopped c w)
  end.
Proof.
  intros Hr. unfold perfmon_stop. rewrite Hr.
  change (negb true) with false. cbv beta iota.
  unfold bind at 1, sys_clock_gettime at 1. cbv beta iota.
  change (mk_timespec _ _) with (now w).
  unfold bind at 1.
  rewrite (for_range_slot_calls stop_block _ c).
  - fold (stopped c w). destruct st as [s0|].
    + unfold bind. destruct (fill_stats _ _) as [s w2]. done.
    + done.
  - intros i w1. unfold when, slot_calls.
    change (counter_at (set_end_time _ c) i) with (counter_at c i).
    destruct (live (counter_at c i)); [|done].
    by rewrite !bind_ignore.
Qed.

Lemma perfmon_reset_spec c w :
  perfmon_reset (Some c) w =
  ((true, Some c), ioctls (slots c ≫= slot_calls reset_block) w).
Proof.
  unfold perfmon_reset. unfold bind at 1.
  rewrite (for_range_slot_calls reset_block _ c); [done|].
  intros i w1. unfold when, slot_calls.
  destruct (live (counter_at c i)); [|done].
  by rewrite !bind_ignore.
Qed.

End Transitions.

(* ===================================================================== *)
(** ** Properties of the state machine                                    *)
(* ===================================================================== *)

Section StateMachine.

Lemma slot_in_slots c k :
  (k < PERFMON_MAX_COUNTERS)%nat → counter_at c k ∈ slots c.
Proof.
  intros Hk. unfold slots. apply list_elem_of_fmap. exists k. split; [done|].
  apply elem_of_seq. lia.
Qed.

Lemma touches_slot c k :
  (k < PERFMON_MAX_COUNTERS)%nat → live (counter_at c k) = true →
  touches (slots c) (fd (counter_at c k)) = true.
Proof.
  intros Hk Hl. unfold touches. apply existsb_exists.
  exists (counter_at c k). split.
  - apply list_elem_of_In. by apply slot_in_slots.
  - by rewrite Hl, Z.eqb_refl.
Qed.

(** The log entries of a guarded loop, written out per slot. *)
Lemma slot_calls_entries blk l :
  ioctl_entry <$> (l ≫= slot_calls blk) =
  l ≫= (fun s => if live s then SysIoctl (fd s) <$> blk else []).
Proof.
  induction l as [|s l IH]; [done|].
  rewrite !bind_cons, fmap_app, IH. f_equal.
  unfold slot_calls. destruct (live s); [|done].
  by rewrite <- list_fmap_compose.
Qed.

(** C1: calling start while the session is Running fails with the
    "already running" message and changes nothing else: the context that
    comes back is the one that went in (still Running, same started_at),
    no system call is issued and every event keeps its state. *)
Theorem start_while_running_fails c w :
  is_running c = true →
  ∃ w', perfmon_start (Some c) w = ((false, Some c), w') ∧
        error_msg w' = "Monitoring already running" ∧
        os_trace w' = os_trace w ∧
        os_events w' = os_events w ∧
        os_clock_ns w' = os_clock_ns w.
Proof.
  intros Hr. rewrite perfmon_start_running by done.
  eexists. split; [reflexivity|]. done.
Qed.

(** Two starts in a row: the second fails and the session the first one
    returned is still the session, Running. *)
Lemma start_twice_fails c w :
  is_running c = false →
  ∃ c1 w1 w2,
    perfmon_start (Some c) w = ((true, Some c1), w1) ∧
    perfmon_start (Some c1) w1 = ((false, Some c1), w2) ∧
    is_running c1 = true.
Proof.
  intros Hr. rewrite perfmon_start_idle by done.
  eexists _, _, _. split; [reflexivity|].
  by rewrite perfmon_start_running.
Qed.

(** C2: calling stop while the session is Idle fails with the "not running"
    message; the context and the caller's record come back unchanged and no
    system call is issued. *)
Theorem stop_while_idle_fails c st w :
  is_running c = false →
  ∃ w', perfmon_stop (Some c) st w = ((false, Some c, st), w') ∧
        error_msg w' = "Monitoring not running" ∧
        os_trace w' = os_trace w ∧
        os_events w' = os_events w.
Proof.
  intros Hr. rewrite perfmon_stop_idle by done.
  eexists. split; [reflexivity|]. done.
Qed.

(** C5: start from Idle succeeds.  Its system calls are, slot by slot in
    index order, a RESET immediately followed by an ENABLE for every enabled
    slot holding a handle, and then one clock reading; afterwards each such
    event is at zero and counting, started_at is the clock reading, and the
    session is Running. *)
Theorem start_from_idle c w :
  is_running c = false →
  ∃ c' w', perfmon_start (Some c) w = ((true, Some c'), w') ∧
    os_trace w' =
      os_trace w ++
      (slots c ≫= fun s =>
         if enabled s && negb (fd s =? -1)
         then [SysIoctl (fd s) PERF_EVENT_IOC_RESET;
               SysIoctl (fd s) PERF_EVENT_IOC_ENABLE]
         else []) ++
      [SysClockGettime] ∧
    (∀ k ev, (k < PERFMON_MAX_COUNTERS)%nat →
       enabled (counter_at c k) = true → fd (counter_at c k) ≠ -1 →
       os_events w !! fd (counter_at c k) = Some ev →
       os_events w' !! fd (counter_at c k) = Some (mk_event (ev_attr ev) 0 true)) ∧
    start_time c' = now w ∧
    is_running c' = true ∧
    counters c' = counters c ∧
    end_time c' = end_time c.
Proof.
  intros Hr. rewrite perfmon_start_idle by done.
  eexists _, _. split; [reflexivity|]. split; [|split; [|done]].
  - rewrite logged_trace, ioctls_trace, slot_calls_entries, <- app_assoc. done.
  - intros k ev Hk He Hf Hev. rewrite logged_events.
    rewrite ioctls_slots_lookup by apply start_block_idem.
    rewrite touches_slot, Hev; [done|done|].
    unfold live. rewrite He. simpl. by apply negb_true_iff, Z.eqb_neq.
Qed.

(** C8: reset succeeds in either state.  It issues one RESET for every
    enabled slot holding a handle, which leaves that event at zero without
    changing whether it counts; events of no such slot are untouched; the
    context (enabled flags, running flag, both timestamps) is returned as it
    was. *)
Theorem reset_in_any_state c w :
  ∃ w', perfmon_reset (Some c) w = ((true, Some c), w') ∧
    os_trace w' =
      os_trace w ++
      (slots c ≫= fun s =>
         if enabled s && negb (fd s =? -1)
         then [SysIoctl (fd s) PERF_EVENT_IOC_RESET]
         else []) ∧
    (∀ k ev, (k < PERFMON_MAX_COUNTERS)%nat →
       enabled (counter_at c k) = true → fd (counter_at c k) ≠ -1 →
       os_events w !! fd (counter_at c k) = Some ev →
       os_events w' !! fd (counter_at c k) =
         Some (mk_event (ev_attr ev) 0 (ev_active ev))) ∧
    (∀ f, touches (slots c) f = false → os_events w' !! f = os_events w !! f) ∧
    os_clock_ns w' = os_clock_ns w.
Proof.
  rewrite perfmon_reset_spec. eexists. split; [reflexivity|].
  split; [|split; [|split]].
  - by rewrite ioctls_trace, slot_calls_entries.
  - intros k ev Hk He Hf Hev.
    rewrite ioctls_slots_lookup by apply reset_block_idem.
    rewrite touches_slot, Hev; [done|done|].
    unfold live. rewrite He. simpl. by apply negb_true_iff, Z.eqb_neq.
  - intros f Hf. rewrite ioctls_slots_lookup by apply reset_block_idem.
    rewrite Hf. by destruct (os_events w !! f).
  - apply (ioctls_settings _ w).
Qed.

(** Multiplication of doubles is commutative, so [q * 100.0] in the source
    is [100 * q]. *)
Lemma double_mul_comm x y : Double.mul x y = Double.mul y x.
Proof.
  unfold Double.mul, SFmul.
  destruct x as [sx|sx| |sx mx ex], y as [sy|sy| |sy my ey];
    try reflexivity; try (f_equal; apply xorb_comm).
  by rewrite (xorb_comm sx sy), (Pos.mul_comm mx my), (Z.add_comm ex ey).
Qed.

(** DISABLE leaves the count of an event as it is, so the values read by
    stop are those the events hold when stop is called. *)
Lemma stopped_counter_value c w f :
  counter_value (os_events (stopped c w)) f = counter_value (os_events w) f.
Proof.
  unfold counter_value, stopped.
  rewrite ioctls_slots_lookup by apply stop_block_idem.
  rewrite logged_events.
  destruct (touches (slots c) f); by destruct (os_events w !! f) as [ev|].
Qed.

(** What a successful stop that is handed a record returns. *)
Lemma perfmon_stop_snapshot c st0 w :
  is_running c = true →
  ∃ s w',
    perfmon_stop (Some c) (Some st0) w =
      ((true, Some (set_is_running false (set_end_time (now w) c)), Some s), w') ∧
    fill_stats (set_end_time (now w) c) (stopped c w) = (s, w').
Proof.
  intros Hr. rewrite perfmon_stop_running by done.
  destruct (fill_stats _ _) as [s w2]. by exists s, w2.
Qed.

(** C3: in the snapshot of a successful stop, each derived metric is zero
    when its denominator count is zero; otherwise instructions_per_cycle is
    the double quotient of the two counts, and each miss rate is 100 times
    the double quotient of its two counts.  The counts enter the division
    converted to double, not divided as integers. *)
Theorem derived_metrics c st0 w :
  is_running c = true →
  ∃ c' s w', perfmon_stop (Some c) (Some st0) w = ((true, Some c', Some s), w') ∧
    insn_per_cycle s =
      (if 0 <? cycles s
       then Double.div (Double.of_Z (instructions s)) (Double.of_Z (cycles s))
       else Double.zero) ∧
    branch_miss_rate s =
      (if 0 <? branches s
       then Double.mul Double.d100
              (Double.div (Double.of_Z (branch_misses s))
                          (Double.of_Z (branches s)))
       else Double.zero) ∧
    cache_miss_rate s =
      (if 0 <? cache_references s
       then Double.mul Double.d100
              (Double.div (Double.of_Z (cache_misses s))
                          (Double.of_Z (cache_references s)))
       else Double.zero).
Proof.
  intros Hr. destruct (perfmon_stop_snapshot c st0 w Hr) as (s & w' & -> & Hfill).
  apply fill_stats_spec in Hfill as (_ & _ & _ & _ & _ & Hipc & Hbmr & Hcmr).
  eexists _, s, w'. split; [reflexivity|].
  rewrite (double_mul_comm Double.d100), (double_mul_comm Double.d100). done.
Qed.

(** C10: a successful stop reads every slot that holds a handle, whether
    the slot is enabled or not.  Its system calls are one clock reading, a
    DISABLE for each enabled slot with a handle, and then a read for each
    slot with a handle; the raw count of kind [k] is the value the event
    behind slot [k] holds (0 without handle or when the read fails), so a
    disabled slot with a handle reports its event's current count. *)
Theorem stop_reads_every_handle c st0 w :
  is_running c = true →
  ∃ c' s w', perfmon_stop (Some c) (Some st0) w = ((true, Some c', Some s), w') ∧
    os_trace w' =
      os_trace w ++ [SysClockGettime] ++
      (slots c ≫= fun s =>
         if enabled s && negb (fd s =? -1)
         then [SysIoctl (fd s) PERF_EVENT_IOC_DISABLE]
         else []) ++
      (slots c ≫= fun s => if fd s =? -1 then [] else [SysRead (fd s)]) ∧
    (∀ k, (k < PERFMON_MAX_COUNTERS)%nat →
       raw_count k s = counter_value (os_events w) (fd (counter_at c k))) ∧
    (∀ k ev, (k < PERFMON_MAX_COUNTERS)%nat →
       enabled (counter_at c k) = false → fd (counter_at c k) ≠ -1 →
       os_events w !! fd (counter_at c k) = Some ev →
       raw_count k s = ev_count ev).
Proof.
  intros Hr. destruct (perfmon_stop_snapshot c st0 w Hr) as (s & w' & -> & Hfill).
  apply fill_stats_spec in Hfill as (_ & _ & Htr & Hraw & _).
  assert (Hval : ∀ k, (k < PERFMON_MAX_COUNTERS)%nat →
            raw_count k s = counter_value (os_events w) (fd (counter_at c k))).
  { intros k Hk. rewrite (Hraw k Hk), stopped_counter_value. done. }
  eexists _, s, w'. split; [reflexivity|]. split; [|split; [done|]].
  - rewrite Htr. unfold stopped.
    rewrite ioctls_trace, logged_trace, slot_calls_entries, <- !app_assoc. done.
  - intros k ev Hk _ Hf Hev. rewrite (Hval k Hk). unfold counter_value.
    apply Z.eqb_neq in Hf. by rewrite Hf, Hev.
Qed.

End StateMachine.

(* ===================================================================== *)
(** ** perfmon_init                                                       *)
(* ===================================================================== *)

Section Init.

Lemma bind_unfold {A B} (m : M A) (k : A → M B) w :
  bind m k w = k (m w).1 (m w).2.
Proof. unfold bind. by destruct (m w). Qed.

Lemma perfmon_init_alloc w :
  os_mem w = true →
  perfmon_init w =
  let (c, w') := acquire_all init_order cleared_context
                   (logged (SysCalloc true) w) in
  (Some (set_is_running false c), w').
Proof.
  intros Hm. unfold perfmon_init. rewrite bind_unfold.
  unfold sys_calloc. rewrite Hm. cbn [fst snd negb].
  unfold init_order, cleared_context. cbn [acquire_all]. cbv zeta.
  repeat match goal with
         | |- context [bind (acquire ?k ?t ?cfg ?c) _ ?w] =>
             rewrite (bind_unfold (acquire k t cfg c) _ w);
             first [ match goal with
                     | E : acquire k t cfg c w = _ |- _ => rewrite E
                     end
                   | destruct (acquire k t cfg c w) as [? ?] eqn:? ];
             cbn [fst snd]
         end.
  reflexivity.
Qed.

Lemma perfmon_init_nomem w :
  os_mem w = false → fst (perfmon_init w) = None.
Proof.
  intros Hm. unfold perfmon_init. rewrite bind_unfold.
  unfold sys_calloc. rewrite Hm. cbn [fst snd negb].
  by rewrite !bind_unfold.
Qed.

Lemma setup_counter_spec t cfg w :
  ∃ w',
    os_policy w' = os_policy w ∧ os_opens w' = (os_opens w + 1)%N ∧
    os_mem w' = os_mem w ∧ os_clock_ns w' = os_clock_ns w ∧
    match os_policy w (os_opens w) (request_of t cfg) with
    | Granted =>
        setup_counter t cfg w = (Z.of_N (os_next_fd w), w') ∧
        os_next_fd w' = (os_next_fd w + 1)%N ∧
        os_events w' =
          <[Z.of_N (os_next_fd w) := mk_event (rq_attr (request_of t cfg)) 0 false]>
            (os_events w) ∧
        error_msg w' = error_msg w
    | Refused e =>
        setup_counter t cfg w = (-1, w') ∧
        os_next_fd w' = os_next_fd w ∧
        os_events w' = os_events w
    end.
Proof.
  unfold setup_counter, perf_event_open. fold (request_of t cfg).
  rewrite bind_unfold. unfold sys_perf_event_open.
  destruct (os_policy w (os_opens w) (request_of t cfg)) as [|e] eqn:Hp;
    cbn [fst snd].
  - assert (Hne : (Z.of_N (os_next_fd w) =? -1) = false) by (apply Z.eqb_neq; lia).
    rewrite Hne, bind_ignore. unfold when, ret. cbn [fst snd].
    eexists. split; [|split; [|split; [|split; [|split; [reflexivity|]]]]].
    all: by repeat split.
  - rewrite bind_ignore. unfold ret.
    eexists. split; [|split; [|split; [|split; [|split; [reflexivity|]]]]].
    all: unfold when; rewrite Z.eqb_refl, !bind_unfold; by repeat split.
Qed.

Lemma acquire_ctx k f c :
  (k < length (counters c))%nat →
  set_enabled k (negb (fd (counter_at (set_fd k f c) k) =? -1)) (set_fd k f c) =
  put_slot k (mk_counter f (negb (f =? -1))) c.
Proof.
  intros Hk. unfold set_enabled, set_fd, counter_at, put_slot, set_counters.
  cbn [counters start_time end_time is_running].
  rewrite list_lookup_insert_eq by done. cbn [default fd].
  by rewrite list_insert_insert_eq.
Qed.

Lemma counter_at_put_eq k s c :
  (k < length (counters c))%nat → counter_at (put_slot k s c) k = s.
Proof.
  intros Hk. unfold counter_at, put_slot, set_counters. cbn [counters].
  by rewrite list_lookup_insert_eq.
Qed.

(** One acquisition: the kernel's answer decides the slot, and nothing
    else of the context changes. *)
Lemma acquire_spec k t cfg c w :
  (k < length (counters c))%nat →
  ∃ w',
    os_policy w' = os_policy w ∧ os_opens w' = (os_opens w + 1)%N ∧
    os_mem w' = os_mem w ∧ os_clock_ns w' = os_clock_ns w ∧
    match os_policy w (os_opens w) (request_of t cfg) with
    | Granted =>
        acquire k t cfg c w =
          (put_slot k (mk_counter (Z.of_N (os_next_fd w)) true) c, w') ∧
        os_next_fd w' = (os_next_fd w + 1)%N ∧
        os_events w' =
          <[Z.of_N (os_next_fd w) := mk_event (rq_attr (request_of t cfg)) 0 false]>
            (os_events w)
    | Refused e =>
        acquire k t cfg c w = (put_slot k (mk_counter (-1) false) c, w') ∧
        os_next_fd w' = os_next_fd w ∧
        os_events w' = os_events w
    end.
Proof.
  intros Hk. destruct (setup_counter_spec t cfg w) as (w' & Hpol & Hop & Hm & Hcl & H).
  exists w'. split; [done|]. split; [done|]. split; [done|]. split; [done|].
  unfold acquire. rewrite bind_unfold.
  destruct (os_policy w (os_opens w) (request_of t cfg)) as [|e].
  - destruct H as (-> & Hn & Hev & _). cbn [fst snd]. unfold ret.
    rewrite acquire_ctx by done.
    assert (Hne : (Z.of_N (os_next_fd w) =? -1) = false) by (apply Z.eqb_neq; lia).
    by rewrite Hne.
  - destruct H as (-> & Hn & Hev). cbn [fst snd]. unfold ret.
    by rewrite acquire_ctx by done.
Qed.

Lemma acquire_frame k t cfg c w :
  (k < length (counters c))%nat →
  ∃ s w1,
    acquire k t cfg c w = (put_slot k s c, w1) ∧
    os_policy w1 = os_policy w ∧ os_opens w1 = (os_opens w + 1)%N ∧
    os_mem w1 = os_mem w ∧ os_clock_ns w1 = os_clock_ns w ∧
    (os_next_fd w ≤ os_next_fd w1)%N ∧
    (∀ f, f < Z.of_N (os_next_fd w) → os_events w1 !! f = os_events w !! f) ∧
    (fd s = -1 ∨
     (fd s = Z.of_N (os_next_fd w) ∧ os_next_fd w1 = (os_next_fd w + 1)%N)).
Proof.
  intros Hk.
  destruct (acquire_spec k t cfg c w Hk) as (w1 & Hpol & Hop & Hm & Hcl & H).
  destruct (os_policy w (os_opens w) (request_of t cfg)) as [|e].
  - destruct H as (Hacq & Hn & Hev). eexists _, w1. split; [exact Hacq|].
    repeat split; try done.
    + lia.
    + intros f Hf. rewrite Hev, lookup_insert_ne by lia. done.
    + right. cbn [fd]. done.
  - destruct H as (Hacq & Hn & Hev). eexists _, w1. split; [exact Hacq|].
    repeat split; try done.
    + lia.
    + intros f Hf. by rewrite Hev.
    + by left.
Qed.

Lemma counter_at_lookup c c' k :
  counters c' !! k = counters c !! k → counter_at c' k = counter_at c k.
Proof. unfold counter_at. by intros ->. Qed.

Lemma put_slot_lookup_ne k k' s c :
  k ≠ k' → counters (put_slot k s c) !! k' = counters c !! k'.
Proof. intros Hne. unfold put_slot, set_counters. cbn [counters]. by rewrite list_lookup_insert_ne. Qed.

Lemma put_slot_length k s c :
  length (counters (put_slot k s c)) = length (counters c).
Proof. unfold put_slot, set_counters. cbn [counters]. apply length_insert. Qed.

Lemma kinds_of_cons k t cfg l : kinds_of ((k, t, cfg) :: l) = k :: kinds_of l.
Proof. done. Qed.

(** What a run of acquisitions leaves alone, and where its descriptors
    come from. *)
Lemma acquire_all_frame l : ∀ c w c' w',
  NoDup (kinds_of l) →
  (∀ k, k ∈ kinds_of l → (k < length (counters c))%nat) →
  acquire_all l c w = (c', w') →
  os_policy w' = os_policy w ∧
  os_opens w' = (os_opens w + N.of_nat (length l))%N ∧
  os_mem w' = os_mem w ∧ os_clock_ns w' = os_clock_ns w ∧
  (os_next_fd w ≤ os_next_fd w')%N ∧
  length (counters c') = length (counters c) ∧
  start_time c' = start_time c ∧ end_time c' = end_time c ∧
  is_running c' = is_running c ∧
  (∀ k, k ∉ kinds_of l → counters c' !! k = counters c !! k) ∧
  (∀ f, f < Z.of_N (os_next_fd w) → os_events w' !! f = os_events w !! f) ∧
  (∀ k, k ∈ kinds_of l →
     fd (counter_at c' k) = -1 ∨
     ∃ n, (os_next_fd w ≤ n < os_next_fd w')%N ∧ fd (counter_at c' k) = Z.of_N n).
Proof.
  induction l as [|[[k0 t0] cfg0] l IH]; intros c w c' w' Hnd Hlt H.
  - cbn in H. injection H as <- <-.
    repeat split; try done; try (cbn [length]; lia).
    intros k Hk. by apply elem_of_nil in Hk.
  - cbn [acquire_all] in H. rewrite bind_unfold in H.
    assert (Hk0 : (k0 < length (counters c))%nat)
      by (apply Hlt; rewrite kinds_of_cons; left).
    destruct (acquire_frame k0 t0 cfg0 c w Hk0)
      as (s & w1 & Hacq & Hpol & Hop & Hm & Hcl & Hn & Hev & Hs).
    rewrite Hacq in H. cbn [fst snd] in H.
    rewrite kinds_of_cons in Hnd, Hlt. apply NoDup_cons in Hnd as [Hnotin Hnd].
    apply IH in H as (Hpol' & Hop' & Hm' & Hcl' & Hn' & Hlen' & Hst' & Het' & Hrun'
                      & Hother' & Hev' & Hrange'); [|done|].
    2:{ intros k Hk. rewrite put_slot_length. apply Hlt. by right. }
    rewrite put_slot_length in Hlen'.
    assert (Hat0 : counter_at c' k0 = s).
    { rewrite (counter_at_lookup (put_slot k0 s c)) by (by apply Hother').
      by apply counter_at_put_eq. }
    split; [congruence|]. split; [cbn [length]; lia|].
    split; [congruence|]. split; [congruence|]. split; [lia|].
    split; [done|]. split; [done|]. split; [done|]. split; [done|].
    split; [|split].
    + intros k Hk. rewrite kinds_of_cons in Hk.
      apply not_elem_of_cons in Hk as [Hne Hk].
      rewrite Hother' by done. by apply put_slot_lookup_ne.
    + intros f Hf. rewrite Hev' by lia. by apply Hev.
    + intros k Hk. rewrite kinds_of_cons in Hk.
      apply elem_of_cons in Hk as [->|Hk].
      * rewrite Hat0. destruct Hs as [Hs|[Hs Hn1]]; [by left|].
        right. exists (os_next_fd w). split; [lia|done].
      * destruct (Hrange' k Hk) as [Hneg|(n & Hn2 & Hfd)]; [by left|].
        right. exists n. split; [lia|done].
Qed.

(** The slot of the [j]-th acquisition is decided by the kernel's answer
    to the [j]-th request alone; a granted slot gets an event of its own,
    at zero and not counting. *)
Lemma acquire_all_outcome l : ∀ c w c' w' j k t cfg,
  NoDup (kinds_of l) →
  (∀ k, k ∈ kinds_of l → (k < length (counters c))%nat) →
  acquire_all l c w = (c', w') →
  l !! j = Some (k, t, cfg) →
  match answer w j t cfg with
  | Granted =>
      ∃ n, (os_next_fd w ≤ n < os_next_fd w')%N ∧
           counter_at c' k = mk_counter (Z.of_N n) true ∧
           os_events w' !! Z.of_N n =
             Some (mk_event (rq_attr (request_of t cfg)) 0 false) ∧
           (∀ k', k' ∈ kinds_of l → k' ≠ k → fd (counter_at c' k') ≠ Z.of_N n)
  | Refused _ => counter_at c' k = mk_counter (-1) false
  end.
Proof.
  induction l as [|[[k0 t0] cfg0] l IH]; intros c w c' w' j k t cfg Hnd Hlt H Hj.
  - by rewrite lookup_nil in Hj.
  - cbn [acquire_all] in H. rewrite bind_unfold in H.
    assert (Hk0 : (k0 < length (counters c))%nat)
      by (apply Hlt; rewrite kinds_of_cons; left).
    assert (Hlt' : ∀ s k, k ∈ kinds_of l →
              (k < length (counters (put_slot k0 s c)))%nat).
    { intros s k1 Hk1. rewrite put_slot_length. apply Hlt.
      rewrite kinds_of_cons. by right. }
    rewrite kinds_of_cons in Hnd. apply NoDup_cons in Hnd as [Hnotin Hnd].
    destruct j as [|j].
    + injection Hj as -> -> ->.
      destruct (acquire_spec k t cfg c w Hk0) as (w1 & Hpol & Hop & _ & _ & Hcase).
      unfold answer. rewrite N.add_0_r.
      destruct (os_policy w (os_opens w) (request_of t cfg)) as [|e].
      * destruct Hcase as (Hacq & Hn & Hev). rewrite Hacq in H. cbn [fst snd] in H.
        apply acquire_all_frame in H
          as (_ & _ & _ & _ & Hn' & _ & _ & _ & _ & Hother' & Hev' & Hrange');
          [|done|by apply Hlt'].
        exists (os_next_fd w). split; [lia|]. split; [|split].
        -- rewrite (counter_at_lookup (put_slot k _ c)) by (by apply Hother').
           by apply counter_at_put_eq.
        -- rewrite Hev' by lia. rewrite Hev. by apply lookup_insert_eq.
        -- intros k' Hk' Hne. rewrite kinds_of_cons in Hk'.
           apply elem_of_cons in Hk' as [->|Hk']; [done|].
           destruct (Hrange' k' Hk') as [->|(n & Hn2 & ->)]; lia.
      * destruct Hcase as (Hacq & Hn & Hev). rewrite Hacq in H. cbn [fst snd] in H.
        apply acquire_all_frame in H
          as (_ & _ & _ & _ & _ & _ & _ & _ & _ & Hother' & _);
          [|done|by apply Hlt'].
        rewrite (counter_at_lookup (put_slot k _ c)) by (by apply Hother').
        by apply counter_at_put_eq.
    + cbn [lookup list_lookup] in Hj.
      destruct (acquire_frame k0 t0 cfg0 c w Hk0)
        as (s & w1 & Hacq & Hpol & Hop & _ & _ & Hn & Hev & Hs).
      rewrite Hacq in H. cbn [fst snd] in H.
      pose proof (IH _ _ _ _ j k t cfg Hnd (Hlt' s) H Hj) as Hout.
      apply acquire_all_frame in H
        as (_ & _ & _ & _ & Hn' & _ & _ & _ & _ & Hother' & _);
        [|done|by apply Hlt'].
      assert (Hans : answer w (S j) t cfg = answer w1 j t cfg).
      { unfold answer. rewrite Hpol, Hop. f_equal. lia. }
      rewrite Hans. destruct (answer w1 j t cfg) as [|e]; [|done].
      destruct Hout as (n & Hn2 & Hat & Hevn & Hdist).
      exists n. split; [lia|]. split; [done|]. split; [done|].
      intros k' Hk' Hne. rewrite kinds_of_cons in Hk'.
      apply elem_of_cons in Hk' as [->|Hk']; [|by apply Hdist].
      rewrite (counter_at_lookup (put_slot k0 s c)) by (by apply Hother').
      rewrite counter_at_put_eq by done.
      destruct Hs as [->|[-> Hn1]]; lia.
Qed.

Lemma init_order_kinds k :
  k ∈ kinds_of init_order ↔ (k < PERFMON_MAX_COUNTERS)%nat.
Proof.
  unfold PERFMON_MAX_COUNTERS. split.
  - intros Hk. cbv in Hk. repeat (apply elem_of_cons in Hk as [->|Hk]; [lia|]).
    by apply elem_of_nil in Hk.
  - intros Hk. do 13 (destruct k as [|k]; [cbv; set_solver|]). lia.
Qed.

Lemma init_order_NoDup : NoDup (kinds_of init_order).
Proof. apply NoDup_ListNoDup. cbv. repeat constructor; cbv; intuition lia. Qed.

Lemma init_order_index k :
  (k < PERFMON_MAX_COUNTERS)%nat →
  ∃ j t cfg, init_order !! j = Some (k, t, cfg).
Proof.
  intros Hk. apply init_order_kinds in Hk.
  apply list_elem_of_fmap in Hk as ([[k' t] cfg] & -> & He).
  apply list_elem_of_lookup in He as [j Hj]. by exists j, t, cfg.
Qed.

(** [perfmon_init] when memory is available: a well-formed Idle context in
    which every slot is as the kernel answered that slot's request. *)
Lemma perfmon_init_spec w :
  os_mem w = true →
  ∃ c w',
    perfmon_init w = (Some c, w') ∧
    ctx_wf c ∧ is_running c = false ∧
    ∀ j k t cfg, init_order !! j = Some (k, t, cfg) →
      match answer w j t cfg with
      | Granted =>
          ∃ n, counter_at c k = mk_counter (Z.of_N n) true ∧
               os_events w' !! Z.of_N n =
                 Some (mk_event (rq_attr (request_of t cfg)) 0 false) ∧
               (∀ k', (k' < PERFMON_MAX_COUNTERS)%nat → k' ≠ k →
                      fd (counter_at c k') ≠ Z.of_N n)
      | Refused _ => counter_at c k = mk_counter (-1) false
      end.
Proof.
  intros Hm. rewrite perfmon_init_alloc by done.
  destruct (acquire_all _ _ _) as [c w'] eqn:Hacq.
  assert (Hlt : ∀ k, k ∈ kinds_of init_order →
            (k < length (counters cleared_context))%nat).
  { intros k Hk. by apply init_order_kinds in Hk. }
  exists (set_is_running false c), w'. split; [done|].
  pose proof (acquire_all_frame _ _ _ _ _ init_order_NoDup Hlt Hacq)
    as (_ & _ & _ & _ & _ & Hlen & _).
  split; [exact Hlen|]. split; [done|].
  intros j k t cfg Hj.
  pose proof (acquire_all_outcome _ _ _ _ _ j k t cfg init_order_NoDup Hlt Hacq Hj)
    as Hout.
  change (answer (logged (SysCalloc true) w) j t cfg) with (answer w j t cfg) in Hout.
  destruct (answer w j t cfg) as [|e]; [|exact Hout].
  destruct Hout as (n & _ & Hat & Hev & Hdist).
  exists n. split; [exact Hat|]. split; [exact Hev|].
  intros k' Hk' Hne. apply Hdist; [|done]. by apply init_order_kinds.
Qed.

(** The same, read off a successful call. *)
Lemma perfmon_init_inv w c w' :
  perfmon_init w = (Some c, w') →
  os_mem w = true ∧ ctx_wf c ∧ is_running c = false ∧
  ∀ k, (k < PERFMON_MAX_COUNTERS)%nat →
    counter_at c k = mk_counter (-1) false ∨
    ∃ n a, counter_at c k = mk_counter (Z.of_N n) true ∧
           os_events w' !! Z.of_N n = Some (mk_event a 0 false) ∧
           (∀ k', (k' < PERFMON_MAX_COUNTERS)%nat → k' ≠ k →
                  fd (counter_at c k') ≠ Z.of_N n).
Proof.
  intros H. destruct (os_mem w) eqn:Hm.
  2:{ apply perfmon_init_nomem in Hm. by rewrite H in Hm. }
  destruct (perfmon_init_spec w Hm) as (c0 & w0 & H0 & Hwf & Hrun & Hout).
  rewrite H in H0. injection H0 as <- <-.
  split; [done|]. split; [done|]. split; [done|].
  intros k Hk. destruct (init_order_index k Hk) as (j & t & cfg & Hj).
  specialize (Hout j k t cfg Hj). destruct (answer w j t cfg) as [|e].
  - right. destruct Hout as (n & Hat & Hev & Hdist). by exists n, (rq_attr (request_of t cfg)).
  - by left.
Qed.

End Init.

(* ===================================================================== *)
(** ** Opening a session, enabling and disabling kinds                    *)
(* ===================================================================== *)

Section Sessions.

Lemma counter_at_set_enabled_eq k b c :
  (k < length (counters c))%nat →
  counter_at (set_enabled k b c) k = mk_counter (fd (counter_at c k)) b.
Proof.
  intros Hk. unfold counter_at at 1, set_enabled, set_counters. cbn [counters].
  by rewrite list_lookup_insert_eq.
Qed.

Lemma counter_at_set_enabled_ne k j b c :
  k ≠ j → counter_at (set_enabled k b c) j = counter_at c j.
Proof.
  intros Hne. unfold counter_at, set_enabled, set_counters. cbn [counters].
  by rewrite list_lookup_insert_ne.
Qed.

Lemma counter_at_set_enabled_ge k b c :
  (length (counters c) ≤ k)%nat → set_enabled k b c = c.
Proof.
  intros Hk. unfold set_enabled, set_counters.
  rewrite list_insert_ge by done. by destruct c.
Qed.

(** The descriptor of a slot is never changed by [set_enabled]. *)
Lemma fd_set_enabled k j b c :
  fd (counter_at (set_enabled k b c) j) = fd (counter_at c j).
Proof.
  destruct (decide (k = j)) as [->|Hne].
  - destruct (decide (j < length (counters c))%nat).
    + by rewrite counter_at_set_enabled_eq.
    + rewrite counter_at_set_enabled_ge by lia. done.
  - by rewrite counter_at_set_enabled_ne.
Qed.

Lemma perfmon_enable_counter_spec c k w :
  (k < PERFMON_MAX_COUNTERS)%nat →
  perfmon_enable_counter (Some c) k w =
  if fd (counter_at c k) =? -1 then ((false, Some c), w)
  else ((true, Some (set_enabled k true c)), w).
Proof.
  intros Hk. unfold perfmon_enable_counter.
  apply Nat.leb_gt in Hk. rewrite Hk.
  by destruct (fd (counter_at c k) =? -1).
Qed.

Lemma perfmon_disable_counter_spec c k w :
  (k < PERFMON_MAX_COUNTERS)%nat →
  perfmon_disable_counter (Some c) k w =
  ((true, Some (set_enabled k false c)), w).
Proof.
  intros Hk. unfold perfmon_disable_counter.
  apply Nat.leb_gt in Hk. by rewrite Hk.
Qed.

(** The context after an operation: only enable and disable touch the
    array, and only in the [enabled] flag of their slot. *)
Lemma run_op_ctx o c w :
  (run_op o c w).1 =
  match o with
  | OpStart =>
      if is_running c then c
      else set_is_running true (set_start_time (now w) c)
  | OpStop _ =>
      if is_running c then set_is_running false (set_end_time (now w) c)
      else c
  | OpReset => c
  | OpEnable k =>
      if (PERFMON_MAX_COUNTERS <=? k)%nat then c
      else if fd (counter_at c k) =? -1 then c
      else set_enabled k true c
  | OpDisable k =>
      if (PERFMON_MAX_COUNTERS <=? k)%nat then c
      else set_enabled k false c
  end.
Proof.
  destruct o as [|st| |k|k]; unfold run_op.
  - destruct (is_running c) eqn:Hr.
    + by rewrite perfmon_start_running.
    + by rewrite perfmon_start_idle.
  - destruct (is_running c) eqn:Hr.
    + rewrite perfmon_stop_running by done. destruct st; [|done].
      by destruct (fill_stats _ _).
    + by rewrite perfmon_stop_idle.
  - by rewrite perfmon_reset_spec.
  - destruct (PERFMON_MAX_COUNTERS <=? k)%nat eqn:Hk.
    + unfold perfmon_enable_counter. rewrite Hk. by rewrite bind_ignore.
    + apply Nat.leb_gt in Hk. rewrite perfmon_enable_counter_spec by done.
      by destruct (fd (counter_at c k) =? -1).
  - destruct (PERFMON_MAX_COUNTERS <=? k)%nat eqn:Hk.
    + unfold perfmon_disable_counter. rewrite Hk. by rewrite bind_ignore.
    + apply Nat.leb_gt in Hk. by rewrite perfmon_disable_counter_spec.
Qed.

Lemma run_op_fd o c w j :
  fd (counter_at (run_op o c w).1 j) = fd (counter_at c j).
Proof.
  rewrite run_op_ctx. destruct o as [|st| |k|k].
  - by destruct (is_running c).
  - by destruct (is_running c).
  - done.
  - destruct (PERFMON_MAX_COUNTERS <=? k)%nat; [done|].
    destruct (fd (counter_at c k) =? -1); [done|]. apply fd_set_enabled.
  - destruct (PERFMON_MAX_COUNTERS <=? k)%nat; [done|]. apply fd_set_enabled.
Qed.

(** An [enabled] flag that is set after an operation was set before it,
    unless the operation is an enable of that very slot with a handle. *)
Lemma run_op_enabled o c w j :
  enabled (counter_at (run_op o c w).1 j) = true →
  enabled (counter_at c j) = true ∨
  (o = OpEnable j ∧ (j < PERFMON_MAX_COUNTERS)%nat ∧ fd (counter_at c j) ≠ -1).
Proof.
  rewrite run_op_ctx. destruct o as [|st| |k|k].
  - destruct (is_running c); by left.
  - destruct (is_running c); by left.
  - by left.
  - destruct (PERFMON_MAX_COUNTERS <=? k)%nat eqn:Hk; [by left|].
    destruct (fd (counter_at c k) =? -1) eqn:Hf; [by left|].
    destruct (decide (k = j)) as [->|Hne].
    + intros _. right. apply Nat.leb_gt in Hk. by apply Z.eqb_neq in Hf.
    + rewrite counter_at_set_enabled_ne by done. by left.
  - destruct (PERFMON_MAX_COUNTERS <=? k)%nat eqn:Hk; [by left|].
    destruct (decide (k = j)) as [->|Hne].
    + destruct (decide (j < length (counters c))%nat).
      * by rewrite counter_at_set_enabled_eq.
      * rewrite counter_at_set_enabled_ge by lia. by left.
    + rewrite counter_at_set_enabled_ne by done. by left.
Qed.

(** C4, as the code has it: when the allocation of the context succeeds,
    open returns an Idle session whatever the kernel answers to the thirteen
    requests.  The slot of each kind follows the answer to that kind's own
    request: granted, it holds a handle, is enabled, and its event is at
    zero and not counting; refused, it holds no handle and is not enabled.
    A refusal therefore never keeps a later kind from being acquired. *)
Theorem open_returns_session w :
  os_mem w = true →
  ∃ c w', perfmon_init w = (Some c, w') ∧
    is_running c = false ∧
    ∀ j k t cfg, init_order !! j = Some (k, t, cfg) →
      match answer w j t cfg with
      | Granted =>
          fd (counter_at c k) ≠ -1 ∧ enabled (counter_at c k) = true ∧
          os_events w' !! fd (counter_at c k) =
            Some (mk_event (rq_attr (request_of t cfg)) 0 false)
      | Refused _ =>
          fd (counter_at c k) = -1 ∧ enabled (counter_at c k) = false
      end.
Proof.
  intros Hm. destruct (perfmon_init_spec w Hm) as (c & w' & H & _ & Hrun & Hout).
  exists c, w'. split; [done|]. split; [done|].
  intros j k t cfg Hj. specialize (Hout j k t cfg Hj).
  destruct (answer w j t cfg) as [|e].
  - destruct Hout as (n & -> & Hev & _). cbn [fd enabled].
    split; [lia|]. by split.
  - by rewrite Hout.
Qed.

(** C7, as the code has it: where the support probe fails, a session that
    open returns is Idle, can be started, stopped and reset, and enable of a
    kind returns true exactly when the kernel granted that kind's request
    during open, false when it refused it. *)
Theorem unsupported_session_usable w w1 c w2 :
  perfmon_is_supported w = (false, w1) →
  perfmon_init w1 = (Some c, w2) →
  is_running c = false ∧
  (∀ w3, ∃ c' w4,
     perfmon_start (Some c) w3 = ((true, Some c'), w4) ∧
     ∀ st w5, ∃ c'' st' w6,
       perfmon_stop (Some c') st w5 = ((true, Some c'', st'), w6)) ∧
  (∀ w3, ∃ w4, perfmon_reset (Some c) w3 = ((true, Some c), w4)) ∧
  (∀ j k t cfg w3, init_order !! j = Some (k, t, cfg) →
     (perfmon_enable_counter (Some c) k w3).1.1 =
       match answer w1 j t cfg with
       | Granted => true
       | Refused _ => false
       end).
Proof.
  intros _ Hinit.
  pose proof (perfmon_init_inv _ _ _ Hinit) as (Hm & _ & Hrun & _).
  destruct (perfmon_init_spec w1 Hm) as (c0 & w0 & H0 & _ & _ & Hout).
  rewrite Hinit in H0. injection H0 as <- <-.
  split; [done|]. split; [|split].
  - intros w3. rewrite perfmon_start_idle by done. eexists _, _. split; [done|].
    intros st w5. rewrite perfmon_stop_running by done.
    destruct st as [s0|]; [|by eexists _, _, _].
    destruct (fill_stats _ _) as [s w6]. by eexists _, _, _.
  - intros w3. rewrite perfmon_reset_spec. by eexists.
  - intros j k t cfg w3 Hj.
    assert (Hk : (k < PERFMON_MAX_COUNTERS)%nat).
    { apply init_order_kinds. apply list_elem_of_fmap.
      exists (k, t, cfg). split; [done|]. by apply list_elem_of_lookup_2 in Hj. }
    rewrite perfmon_enable_counter_spec by done.
    specialize (Hout j k t cfg Hj). destruct (answer w1 j t cfg) as [|e].
    + destruct Hout as (n & -> & _). cbn [fd].
      assert (Hne : (Z.of_N n =? -1) = false) by (apply Z.eqb_neq; lia).
      by rewrite Hne.
    + by rewrite Hout.
Qed.

(** C9: a slot without a handle is never enabled.  After open a slot is
    enabled exactly when it holds a handle; enable of a slot without handle
    returns false and changes nothing at all; enable of a slot with a handle
    returns true and sets that slot's flag only; every operation preserves
    the invariant, keeps every descriptor, and an enabled flag found set
    after an operation was set before it unless the operation was the enable
    of that slot. *)
Theorem slot_invariant :
  (∀ w c w', perfmon_init w = (Some c, w') →
     ∀ k, (k < PERFMON_MAX_COUNTERS)%nat →
       enabled (counter_at c k) = negb (fd (counter_at c k) =? -1)) ∧
  (∀ c k w, (k < PERFMON_MAX_COUNTERS)%nat → fd (counter_at c k) = -1 →
     perfmon_enable_counter (Some c) k w = ((false, Some c), w)) ∧
  (∀ c k w, (k < PERFMON_MAX_COUNTERS)%nat → fd (counter_at c k) ≠ -1 →
     ∃ c', perfmon_enable_counter (Some c) k w = ((true, Some c'), w) ∧
           (ctx_wf c → enabled (counter_at c' k) = true) ∧
           ∀ j, j ≠ k → counter_at c' j = counter_at c j) ∧
  (∀ o c w, slot_inv c → slot_inv (run_op o c w).1) ∧
  (∀ o c w j, fd (counter_at (run_op o c w).1 j) = fd (counter_at c j)) ∧
  (∀ o c w j, enabled (counter_at (run_op o c w).1 j) = true →
     enabled (counter_at c j) = true ∨ o = OpEnable j).
Proof.
  split; [|split; [|split; [|split; [|split]]]].
  - intros w c w' H k Hk.
    apply perfmon_init_inv in H as (_ & _ & _ & Hslots).
    destruct (Hslots k Hk) as [->|(n & a & -> & _)]; [done|].
    cbn [fd enabled]. symmetry. apply negb_true_iff, Z.eqb_neq. lia.
  - intros c k w Hk Hf. rewrite perfmon_enable_counter_spec by done.
    by rewrite Hf.
  - intros c k w Hk Hf. rewrite perfmon_enable_counter_spec by done.
    apply Z.eqb_neq in Hf. rewrite Hf. eexists. split; [done|]. split.
    + intros Hwf. rewrite counter_at_set_enabled_eq; [done|].
      unfold ctx_wf in Hwf. lia.
    + intros j Hj. by rewrite counter_at_set_enabled_ne.
  - intros o c w Hinv k Hk He. rewrite run_op_fd.
    apply run_op_enabled in He as [He|(_ & _ & Hf)]; [by apply Hinv|done].
  - apply run_op_fd.
  - intros o c w j He. apply run_op_enabled in He as [He|(-> & _)]; [by left|by right].
Qed.

End Sessions.

(* ===================================================================== *)
(** ** Disabled kinds across a measurement                                *)
(* ===================================================================== *)

Section Disabled.

Lemma touches_none c f :
  (∀ j, (j < PERFMON_MAX_COUNTERS)%nat →
        live (counter_at c j) = true → fd (counter_at c j) ≠ f) →
  touches (slots c) f = false.
Proof.
  intros H. destruct (touches (slots c) f) eqn:E; [|done].
  apply existsb_exists in E as (s & Hin & Hs).
  apply list_elem_of_In, list_elem_of_fmap in Hin as (j & -> & Hj).
  apply elem_of_seq in Hj. apply andb_true_iff in Hs as [Hl Hf].
  apply Z.eqb_eq in Hf. exfalso. apply (H j); [lia|done|done].
Qed.

Lemma workload_lookup delta dt w f :
  os_events (workload delta dt w) !! f = os_events w !! f ≫= count_on delta f.
Proof. unfold workload. cbn [os_events with_clock_ns with_events]. apply map_lookup_imap. Qed.

(** An event that holds zero and is not counting, behind a descriptor no
    live slot uses, still holds zero after start, any workload and the
    disable loop of stop. *)
Lemma untouched_event_stays_zero c a f delta dt w :
  touches (slots c) f = false →
  os_events w !! f = Some (mk_event a 0 false) →
  os_events
    (stopped c (workload delta dt
                  (logged SysClockGettime
                     (ioctls (slots c ≫= slot_calls start_block) w)))) !! f =
  Some (mk_event a 0 false).
Proof.
  intros Ht Hev. unfold stopped.
  rewrite ioctls_slots_lookup by apply stop_block_idem.
  rewrite Ht, logged_events, workload_lookup, logged_events.
  rewrite ioctls_slots_lookup by apply start_block_idem.
  by rewrite Ht, Hev.
Qed.

(** C6, as the code has it: on a freshly opened session, a kind disabled
    before the first start has raw count 0 in the snapshot of the matching
    stop, whatever the workload in between. *)
Theorem disabled_before_first_start_reads_zero w c w1 k delta dt st0 :
  perfmon_init w = (Some c, w1) →
  (k < PERFMON_MAX_COUNTERS)%nat →
  ∃ c1 c2 c3 s w2 w3,
    perfmon_disable_counter (Some c) k w1 = ((true, Some c1), w1) ∧
    perfmon_start (Some c1) w1 = ((true, Some c2), w2) ∧
    perfmon_stop (Some c2) (Some st0) (workload delta dt w2) =
      ((true, Some c3, Some s), w3) ∧
    raw_count k s = 0.
Proof.
  intros Hinit Hk.
  apply perfmon_init_inv in Hinit as (_ & Hwf & Hrun & Hslots).
  set (c1 := set_enabled k false c).
  assert (Hat1 : counter_at c1 k = mk_counter (fd (counter_at c k)) false).
  { apply counter_at_set_enabled_eq. unfold ctx_wf in Hwf. lia. }
  set (c2 := set_is_running true (set_start_time (now w1) c1)).
  set (w2 := logged SysClockGettime (ioctls (slots c1 ≫= slot_calls start_block) w1)).
  destruct (perfmon_stop_snapshot c2 st0 (workload delta dt w2) eq_refl)
    as (s & w3 & Hstop & Hfill).
  eexists c1, c2, _, s, w2, w3.
  split; [by apply perfmon_disable_counter_spec|].
  split; [by apply perfmon_start_idle|]. split; [exact Hstop|].
  apply fill_stats_spec in Hfill as (_ & _ & _ & Hraw & _).
  rewrite (Hraw k Hk).
  change (counter_at (set_end_time _ c2) k) with (counter_at c1 k).
  rewrite Hat1. cbn [fd]. unfold counter_value.
  destruct (Hslots k Hk) as [->|(n & a & Hat & Hev & Hdist)]; [done|].
  rewrite Hat. cbn [fd].
  change (stopped c2 (workload delta dt w2))
    with (stopped c1 (workload delta dt w2)).
  unfold w2. rewrite (untouched_event_stays_zero c1 a).
  - by destruct (Z.of_N n =? -1).
  - apply touches_none. intros j Hj Hl.
    destruct (decide (j = k)) as [->|Hne].
    + by rewrite Hat1 in Hl.
    + unfold c1. rewrite fd_set_enabled. by apply Hdist.
  - done.
Qed.

End Disabled.

(* ===================================================================== *)
(** ** The properties at concrete environments                            *)
(* ===================================================================== *)

Section Concrete.

(** [(1/3) * 100] and [100/3] differ in the last bit of a double: the
    percentage of the source is the quotient of the counts, then scaled. *)
Remark percent_is_scaled_quotient :
  Double.mul Double.d100 (Double.div (Double.of_Z 1) (Double.of_Z 3)) ≠
  Double.div (Double.of_Z 100) (Double.of_Z 3).
Proof. vm_compute. discriminate. Qed.

Lemma start_while_running_fails_witness :
  is_running (started granting_world).1 = true ∧
  ∃ w', perfmon_start (Some (started granting_world).1) (started granting_world).2 =
          ((false, Some (started granting_world).1), w') ∧
        error_msg w' = "Monitoring already running" ∧
        os_trace w' = os_trace (started granting_world).2 ∧
        os_events w' = os_events (started granting_world).2 ∧
        os_clock_ns w' = os_clock_ns (started granting_world).2.
Proof.
  split; [vm_compute; reflexivity|].
  apply start_while_running_fails. vm_compute. reflexivity.
Defined.

Lemma stop_while_idle_fails_witness :
  is_running (opened granting_world).1 = false ∧
  ∃ w', perfmon_stop (Some (opened granting_world).1) (Some blank_stats)
          (opened granting_world).2 =
          ((false, Some (opened granting_world).1, Some blank_stats), w') ∧
        error_msg w' = "Monitoring not running" ∧
        os_trace w' = os_trace (opened granting_world).2 ∧
        os_events w' = os_events (opened granting_world).2.
Proof.
  split; [vm_compute; reflexivity|].
  apply stop_while_idle_fails. vm_compute. reflexivity.
Defined.

Lemma derived_metrics_witness :
  is_running (started granting_world).1 = true ∧
  ∃ c' s w',
    perfmon_stop (Some (started granting_world).1) (Some blank_stats)
      (workload (fun f => f) 1000 (started granting_world).2) =
      ((true, Some c', Some s), w') ∧
    insn_per_cycle s =
      (if 0 <? cycles s
       then Double.div (Double.of_Z (instructions s)) (Double.of_Z (cycles s))
       else Double.zero) ∧
    branch_miss_rate s =
      (if 0 <? branches s
       then Double.mul Double.d100
              (Double.div (Double.of_Z (branch_misses s))
                          (Double.of_Z (branches s)))
       else Double.zero) ∧
    cache_miss_rate s =
      (if 0 <? cache_references s
       then Double.mul Double.d100
              (Double.div (Double.of_Z (cache_misses s))
                          (Double.of_Z (cache_references s)))
       else Double.zero).
Proof.
  split; [vm_compute; reflexivity|].
  apply derived_metrics. vm_compute. reflexivity.
Defined.

Lemma open_returns_session_witness :
  os_mem refusing_world = true ∧
  ∃ c w', perfmon_init refusing_world = (Some c, w') ∧
    is_running c = false ∧
    ∀ j k t cfg, init_order !! j = Some (k, t, cfg) →
      match answer refusing_world j t cfg with
      | Granted =>
          fd (counter_at c k) ≠ -1 ∧ enabled (counter_at c k) = true ∧
          os_events w' !! fd (counter_at c k) =
            Some (mk_event (rq_attr (request_of t cfg)) 0 false)
      | Refused _ =>
          fd (counter_at c k) = -1 ∧ enabled (counter_at c k) = false
      end.
Proof.
  split; [reflexivity|]. apply open_returns_session. reflexivity.
Defined.

(** C4 as stated fails: without memory open returns no session. *)
Lemma open_without_memory_returns_null :
  (perfmon_init exhausted_world).1 = None ∧
  error_msg (perfmon_init exhausted_world).2 =
    "Failed to allocate context: Cannot allocate memory" ∧
  ¬ (∀ w, is_Some (perfmon_init w).1).
Proof.
  split; [vm_compute; reflexivity|]. split; [vm_compute; reflexivity|].
  intros H. destruct (H exhausted_world) as [c Hc]. vm_compute in Hc. discriminate.
Qed.

Lemma start_from_idle_witness :
  is_running (opened granting_world).1 = false ∧
  ∃ c' w',
    perfmon_start (Some (opened granting_world).1) (opened granting_world).2 =
      ((true, Some c'), w') ∧
    is_running c' = true ∧
    start_time c' = now (opened granting_world).2.
Proof.
  split; [vm_compute; reflexivity|].
  destruct (start_from_idle (opened granting_world).1 (opened granting_world).2)
    as (c' & w' & H & _ & _ & Hst & Hrun & _).
  { vm_compute. reflexivity. }
  exists c', w'. split; [exact H|]. split; [exact Hrun|exact Hst].
Defined.

(** C6 as stated fails: cycles, disabled before the second start, still
    shows the 5 counted during the first measurement, while the kinds left
    enabled show the 7 of the second. *)
Lemma disabled_kind_keeps_stale_count :
  second_measurement.1 = [true; true; true; true; true] ∧
  raw_count PERFMON_CYCLES <$> second_measurement.2 = Some 5 ∧
  raw_count PERFMON_INSTRUCTIONS <$> second_measurement.2 = Some 7.
Proof. vm_compute. done. Qed.

Lemma disabled_before_first_start_reads_zero_witness :
  perfmon_init granting_world =
    (Some (opened granting_world).1, (opened granting_world).2) ∧
  (PERFMON_CYCLES < PERFMON_MAX_COUNTERS)%nat ∧
  ∃ c1 c2 c3 s w2 w3,
    perfmon_disable_counter (Some (opened granting_world).1) PERFMON_CYCLES
      (opened granting_world).2 = ((true, Some c1), (opened granting_world).2) ∧
    perfmon_start (Some c1) (opened granting_world).2 = ((true, Some c2), w2) ∧
    perfmon_stop (Some c2) (Some blank_stats) (workload (fun _ => 5) 1000 w2) =
      ((true, Some c3, Some s), w3) ∧
    raw_count PERFMON_CYCLES s = 0.
Proof.
  split; [vm_compute; reflexivity|]. split; [unfold PERFMON_CYCLES, PERFMON_MAX_COUNTERS; lia|].
  apply (disabled_before_first_start_reads_zero granting_world).
  - vm_compute. reflexivity.
  - unfold PERFMON_CYCLES, PERFMON_MAX_COUNTERS. lia.
Defined.

(** C7 as stated fails: the probe reports no support, open returns a
    session, and enable of page faults returns true. *)
Lemma enable_succeeds_where_probe_fails :
  (perfmon_is_supported unsupported_world).1 = false ∧
  is_Some (perfmon_init probed_world).1 ∧
  (perfmon_enable_counter (Some (opened probed_world).1) PERFMON_PAGE_FAULTS
     (opened probed_world).2).1.1 = true.
Proof.
  split; [vm_compute; reflexivity|]. split; [|vm_compute; reflexivity].
  eexists. vm_compute. reflexivity.
Qed.

Lemma unsupported_session_usable_witness :
  perfmon_is_supported unsupported_world = (false, probed_world) ∧
  perfmon_init probed_world = (Some (opened probed_world).1, (opened probed_world).2) ∧
  is_running (opened probed_world).1 = false ∧
  (∀ w3, ∃ w4, perfmon_reset (Some (opened probed_world).1) w3 =
                 ((true, Some (opened probed_world).1), w4)) ∧
  (perfmon_enable_counter (Some (opened probed_world).1) PERFMON_CYCLES
     (opened probed_world).2).1.1 = false ∧
  (perfmon_enable_counter (Some (opened probed_world).1) PERFMON_PAGE_FAULTS
     (opened probed_world).2).1.1 = true.
Proof.
  assert (H1 : perfmon_is_supported unsupported_world = (false, probed_world))
    by (vm_compute; reflexivity).
  assert (H2 : perfmon_init probed_world =
               (Some (opened probed_world).1, (opened probed_world).2))
    by (vm_compute; reflexivity).
  destruct (unsupported_session_usable _ _ _ _ H1 H2) as (Hrun & _ & Hreset & Hen).
  split; [exact H1|]. split; [exact H2|]. split; [exact Hrun|].
  split; [exact Hreset|]. split.
  - rewrite (Hen 0%nat PERFMON_CYCLES PERF_TYPE_HARDWARE PERF_COUNT_HW_CPU_CYCLES);
      reflexivity.
  - rewrite (Hen 6%nat PERFMON_PAGE_FAULTS PERF_TYPE_SOFTWARE PERF_COUNT_SW_PAGE_FAULTS);
      reflexivity.
Defined.

Lemma reset_in_any_state_witness :
  ∃ w', perfmon_reset (Some (started granting_world).1) (started granting_world).2 =
          ((true, Some (started granting_world).1), w') ∧
        os_clock_ns w' = os_clock_ns (started granting_world).2.
Proof.
  destruct (reset_in_any_state (started granting_world).1 (started granting_world).2)
    as (w' & H & _ & _ & _ & Hc).
  exists w'. split; [exact H|exact Hc].
Defined.

Lemma slot_invariant_witness :
  slot_inv (opened unsupported_world).1 ∧
  slot_inv (run_op (OpEnable PERFMON_CYCLES) (opened unsupported_world).1
              (opened unsupported_world).2).1 ∧
  perfmon_enable_counter (Some (opened unsupported_world).1) PERFMON_CYCLES
    (opened unsupported_world).2 =
    ((false, Some (opened unsupported_world).1), (opened unsupported_world).2).
Proof.
  destruct slot_invariant as (Hinit & Hno & _ & Hpres & _).
  assert (Hinv : slot_inv (opened unsupported_world).1).
  { intros k Hk He.
    rewrite (Hinit unsupported_world _ (opened unsupported_world).2) in He;
      [|vm_compute; reflexivity|done].
    by apply negb_true_iff, Z.eqb_neq in He. }
  split; [exact Hinv|]. split; [by apply Hpres|].
  apply Hno; [unfold PERFMON_CYCLES, PERFMON_MAX_COUNTERS; lia|].
  vm_compute. reflexivity.
Defined.

Lemma stop_reads_every_handle_witness :
  is_running (started granting_world).1 = true ∧
  ∃ c' s w',
    perfmon_stop (Some (started granting_world).1) (Some blank_stats)
      (started granting_world).2 = ((true, Some c', Some s), w') ∧
    ∀ k, (k < PERFMON_MAX_COUNTERS)%nat →
      raw_count k s =
      counter_value (os_events (started granting_world).2)
        (fd (counter_at (started granting_world).1 k)).
Proof.
  split; [vm_compute; reflexivity|].
  destruct (stop_reads_every_handle (started granting_world).1 blank_stats
              (started granting_world).2) as (c' & s & w' & H & _ & Hraw & _).
  { vm_compute. reflexivity. }
  exists c', s, w'. split; [exact H|exact Hraw].
Defined.

End Concrete.

(* ===================================================================== *)
(** ** Releasing the handles                                              *)
(* ===================================================================== *)

Section Cleanup.

Lemma for_range_fold (step : perf_counter_t → world → world)
    (body : nat → M unit) c from n w :
  (∀ i w, body i w = (tt, step (counter_at c i) w)) →
  for_range from n body w =
  (tt, foldl (fun w s => step s w) w (counter_at c <$> seq from n)).
Proof.
  intros Hbody. revert from w. induction n as [|n IH]; intros from w; simpl.
  - done.
  - unfold bind at 1. by rewrite Hbody, IH.
Qed.

Lemma perfmon_cleanup_spec c w :
  perfmon_cleanup (Some c) w = (tt, foldl (fun w s => close_step s w) w (slots c)).
Proof.
  unfold perfmon_cleanup. apply (for_range_fold close_step).
  intros i w1. unfold when, close_step.
  destruct (fd (counter_at c i) =? -1); cbn [negb]; [done|].
  by rewrite bind_ignore.
Qed.

Lemma sys_close_lookup g w f :
  os_events (sys_close g w).2 !! f =
  if decide (g = f) then None else os_events w !! f.
Proof.
  unfold sys_close. destruct (os_events w !! g) as [ev|] eqn:E; simpl.
  - rewrite lookup_delete. by case_decide.
  - case_decide; by subst.
Qed.

Lemma sys_close_settings g w : same_settings w (sys_close g w).2.
Proof. unfold sys_close. destruct (os_events w !! g); by repeat split. Qed.

Lemma sys_close_trace g w :
  os_trace (sys_close g w).2 = os_trace w ++ [SysClose g].
Proof. unfold sys_close. by destruct (os_events w !! g). Qed.

Lemma close_all_lookup l w f :
  os_events (foldl (fun w s => close_step s w) w l) !! f =
  if holds l f then None else os_events w !! f.
Proof.
  revert w. induction l as [|s l IH]; intros w; [done|].
  cbn [foldl holds existsb]. rewrite IH. fold (holds l f).
  unfold close_step. destruct (fd s =? -1) eqn:Hs; cbn [negb andb orb]; [done|].
  rewrite sys_close_lookup. case_decide as Hf.
  - subst f. rewrite Z.eqb_refl. by destruct (holds l (fd s)).
  - apply Z.eqb_neq in Hf. by rewrite Hf.
Qed.

Lemma close_all_trace l w :
  os_trace (foldl (fun w s => close_step s w) w l) =
  os_trace w ++ (SysClose <$> filter (fun f => f ≠ -1) (fd <$> l)).
Proof.
  revert w. induction l as [|s l IH]; intros w.
  - by rewrite app_nil_r.
  - cbn [foldl]. rewrite IH, fmap_cons. unfold close_step.
    destruct (fd s =? -1) eqn:Hs.
    + apply Z.eqb_eq in Hs. by rewrite filter_cons_False by (by intros ?).
    + apply Z.eqb_neq in Hs. rewrite filter_cons_True by done.
      by rewrite sys_close_trace, fmap_cons, <- app_assoc.
Qed.

Lemma close_all_settings l w :
  same_settings w (foldl (fun w s => close_step s w) w l).
Proof.
  revert w. induction l as [|s l IH]; intros w; [apply same_settings_refl|].
  cbn [foldl]. eapply same_settings_trans; [|apply IH].
  unfold close_step. destruct (fd s =? -1); [apply same_settings_refl|].
  apply sys_close_settings.
Qed.

Lemma holds_slot c k :
  (k < PERFMON_MAX_COUNTERS)%nat → fd (counter_at c k) ≠ -1 →
  holds (slots c) (fd (counter_at c k)) = true.
Proof.
  intros Hk Hf. apply existsb_exists. exists (counter_at c k). split.
  - apply list_elem_of_In. by apply slot_in_slots.
  - rewrite Z.eqb_refl. apply Z.eqb_neq in Hf. by rewrite Hf.
Qed.

Lemma holds_elim c f :
  holds (slots c) f = true →
  ∃ k, (k < PERFMON_MAX_COUNTERS)%nat ∧ fd (counter_at c k) = f ∧ f ≠ -1.
Proof.
  intros H. apply existsb_exists in H as (s & Hin & Hs).
  apply list_elem_of_In, list_elem_of_fmap in Hin as (j & -> & Hj).
  apply elem_of_seq in Hj. apply andb_true_iff in Hs as [Hn Hf].
  apply Z.eqb_eq in Hf. apply negb_true_iff, Z.eqb_neq in Hn.
  exists j. split; [lia|]. split; [done|]. by rewrite <- Hf.
Qed.

Lemma filter_fmap_comm {A B} (f : A → B) (P : B → Prop)
    `{∀ x, Decision (P x)} (l : list A) :
  filter P (f <$> l) = f <$> filter (P ∘ f) l.
Proof.
  induction l as [|a l IH]; [done|]. rewrite fmap_cons.
  destruct (decide (P (f a))) as [Hp|Hp].
  - rewrite !filter_cons_True by done. by rewrite fmap_cons, IH.
  - by rewrite !filter_cons_False by done.
Qed.

(** The handles of a session that [perfmon_init] returned are pairwise
    distinct. *)
Lemma init_handles_NoDup w c w' :
  perfmon_init w = (Some c, w') → NoDup (handles c).
Proof.
  intros H. apply perfmon_init_inv in H as (_ & _ & _ & Hslots).
  unfold handles, slots. rewrite <- list_fmap_compose.
  rewrite filter_fmap_comm.
  apply NoDup_fmap_2_strong; [|apply NoDup_filter, NoDup_seq].
  intros i j Hi Hj Heq.
  apply list_elem_of_filter in Hi as [Hi1 Hi2].
  apply list_elem_of_filter in Hj as [Hj1 Hj2].
  apply elem_of_seq in Hi2. apply elem_of_seq in Hj2.
  cbn [compose] in *.
  destruct (decide (i = j)) as [|Hne]; [done|]. exfalso.
  destruct (Hslots i ltac:(lia)) as [Hi3|(n & a & Hi3 & _ & Hdist)].
  - rewrite Hi3 in Hi1. by cbn in Hi1.
  - apply (Hdist j); [lia|done|]. rewrite <- Heq, Hi3. done.
Qed.

(** X9: Closing a session closes every handle it holds and nothing
    else.  The calls are one [close] per slot with a handle, in index order;
    afterwards none of these descriptors is open and every other event is
    as it was.  For a session that [perfmon_init] returned no descriptor
    is closed twice. *)
Theorem cleanup_closes_every_handle w0 c w1 w :
  perfmon_init w0 = (Some c, w1) →
  ∃ w', perfmon_cleanup (Some c) w = (tt, w') ∧
    os_trace w' = os_trace w ++ (SysClose <$> handles c) ∧
    NoDup (handles c) ∧
    (∀ k, (k < PERFMON_MAX_COUNTERS)%nat → fd (counter_at c k) ≠ -1 →
          os_events w' !! fd (counter_at c k) = None) ∧
    (∀ f, f ∉ handles c → os_events w' !! f = os_events w !! f) ∧
    error_msg w' = error_msg w.
Proof.
  intros Hinit. rewrite perfmon_cleanup_spec. eexists. split; [done|].
  split; [apply close_all_trace|]. split; [by eapply init_handles_NoDup|].
  split; [|split].
  - intros k Hk Hf. rewrite close_all_lookup. by rewrite holds_slot.
  - intros f Hf. rewrite close_all_lookup.
    destruct (holds (slots c) f) eqn:Hh; [|done].
    apply holds_elim in Hh as (k & Hk & <- & Hne). exfalso. apply Hf.
    unfold handles. apply list_elem_of_filter. split; [done|].
    apply list_elem_of_fmap. exists (counter_at c k). split; [done|].
    by apply slot_in_slots.
  - apply (close_all_settings _ w).
Qed.

End Cleanup.

(* ===================================================================== *)
(** ** The system calls and diagnostics of perfmon_init                   *)
(* ===================================================================== *)

Section InitLog.

Lemma setup_counter_run t cfg w :
  setup_counter t cfg w =
  match os_policy w (os_opens w) (request_of t cfg) with
  | Granted =>
      (Z.of_N (os_next_fd w),
       logged (SysPerfEventOpen (request_of t cfg) (Z.of_N (os_next_fd w)))
         (with_next_fd (os_next_fd w + 1)%N
            (with_events
               (<[Z.of_N (os_next_fd w) :=
                    mk_event (rq_attr (request_of t cfg)) 0 false]> (os_events w))
               (with_opens (os_opens w + 1)%N w))))
  | Refused e =>
      (-1,
       with_error_msg (open_failure_message w t cfg e)
         (logged (SysPerfEventOpen (request_of t cfg) (-1))
            (with_errno e (with_opens (os_opens w + 1)%N w))))
  end.
Proof.
  unfold setup_counter, perf_event_open. fold (request_of t cfg).
  rewrite bind_unfold. unfold sys_perf_event_open.
  destruct (os_policy w (os_opens w) (request_of t cfg)) as [|e]; cbn [fst snd].
  - assert (Hne : (Z.of_N (os_next_fd w) =? -1) = false) by (apply Z.eqb_neq; lia).
    by rewrite Hne, bind_ignore.
  - rewrite bind_ignore. unfold when. rewrite Z.eqb_refl, !bind_unfold. done.
Qed.

(** One acquisition, with its log entry, its message and its event. *)
Lemma acquire_log k t cfg c w :
  (k < length (counters c))%nat →
  ∃ s w1,
    acquire k t cfg c w = (put_slot k s c, w1) ∧
    os_trace w1 = os_trace w ++ [SysPerfEventOpen (request_of t cfg) (fd s)] ∧
    os_policy w1 = os_policy w ∧ os_opens w1 = (os_opens w + 1)%N ∧
    os_strerror w1 = os_strerror w ∧
    error_msg w1 =
      match answer w 0 t cfg with
      | Granted => error_msg w
      | Refused e => open_failure_message w t cfg e
      end ∧
    (∀ f, (fd s ≠ -1 → fd s ≠ f) → os_events w1 !! f = os_events w !! f).
Proof.
  intros Hk. unfold acquire, answer. rewrite bind_unfold, setup_counter_run.
  rewrite N.add_0_r.
  destruct (os_policy w (os_opens w) (request_of t cfg)) as [|e];
    cbn [fst snd]; unfold ret; rewrite acquire_ctx by done.
  - eexists _, _. split; [reflexivity|]. cbn [fd].
    repeat split; try done.
    intros f Hf. cbn. rewrite lookup_insert_ne; [done|]. apply Hf. lia.
  - eexists _, _. split; [reflexivity|]. by repeat split.
Qed.

Lemma last_diagnostic_shift w w1 j l msg :
  os_policy w1 = os_policy w → os_opens w1 = (os_opens w + 1)%N →
  os_strerror w1 = os_strerror w →
  last_diagnostic w1 j l msg = last_diagnostic w (S j) l msg.
Proof.
  intros Hp Ho Hs. revert j msg.
  induction l as [|[[k t] cfg] l IH]; intros j msg; [done|].
  cbn [last_diagnostic]. rewrite IH.
  assert (Ha : answer w1 j t cfg = answer w (S j) t cfg).
  { unfold answer. rewrite Hp, Ho. f_equal. lia. }
  rewrite Ha. unfold open_failure_message. by rewrite Hs.
Qed.

(** A run of acquisitions: its log, its message and the events it leaves
    alone. *)
Lemma acquire_all_log l : ∀ c w c' w',
  NoDup (kinds_of l) →
  (∀ k, k ∈ kinds_of l → (k < length (counters c))%nat) →
  acquire_all l c w = (c', w') →
  os_trace w' = os_trace w ++ (open_entry c' <$> l) ∧
  os_strerror w' = os_strerror w ∧
  error_msg w' = last_diagnostic w 0 l (error_msg w) ∧
  (∀ f, (∀ k, k ∈ kinds_of l → fd (counter_at c' k) ≠ -1 →
              fd (counter_at c' k) ≠ f) →
        os_events w' !! f = os_events w !! f).
Proof.
  induction l as [|[[k0 t0] cfg0] l IH]; intros c w c' w' Hnd Hlt H.
  - cbn in H. injection H as <- <-. by rewrite app_nil_r.
  - cbn [acquire_all] in H. rewrite bind_unfold in H.
    assert (Hk0 : (k0 < length (counters c))%nat)
      by (apply Hlt; rewrite kinds_of_cons; left).
    destruct (acquire_log k0 t0 cfg0 c w Hk0)
      as (s & w1 & Hacq & Htr & Hpol & Hop & Hstr & Hmsg & Hev).
    rewrite Hacq in H. cbn [fst snd] in H.
    rewrite kinds_of_cons in Hnd. apply NoDup_cons in Hnd as [Hnotin Hnd].
    assert (Hlt' : ∀ k, k ∈ kinds_of l →
              (k < length (counters (put_slot k0 s c)))%nat).
    { intros k1 Hk1. rewrite put_slot_length. apply Hlt.
      rewrite kinds_of_cons. by right. }
    pose proof (acquire_all_frame _ _ _ _ _ Hnd Hlt' H)
      as (_ & _ & _ & _ & _ & _ & _ & _ & _ & Hother & _).
    assert (Hat0 : counter_at c' k0 = s).
    { rewrite (counter_at_lookup (put_slot k0 s c)) by (by apply Hother).
      by apply counter_at_put_eq. }
    apply IH in H as (Htr' & Hstr' & Hmsg' & Hev'); [|done|done].
    split; [|split; [|split]].
    + rewrite Htr', Htr, fmap_cons, <- app_assoc. cbn [app].
      unfold open_entry at 2. cbn [fst snd]. by rewrite Hat0.
    + congruence.
    + cbn [last_diagnostic]. rewrite Hmsg', Hmsg.
      by apply last_diagnostic_shift.
    + intros f Hf. rewrite Hev'.
      * apply Hev. rewrite <- Hat0. apply Hf. rewrite kinds_of_cons. left.
      * intros k Hk. apply Hf. rewrite kinds_of_cons. by right.
Qed.

(** [perfmon_init] with memory: log, message and events. *)
Lemma perfmon_init_log w :
  os_mem w = true →
  ∃ c w',
    perfmon_init w = (Some c, w') ∧
    os_trace w' = os_trace w ++ SysCalloc true :: (open_entry c <$> init_order) ∧
    error_msg w' = last_diagnostic w 0 init_order (error_msg w) ∧
    (∀ f, holds (slots c) f = false → os_events w' !! f = os_events w !! f) ∧
    (∀ f, holds (slots c) f = true → Z.of_N (os_next_fd w) ≤ f).
Proof.
  intros Hm. rewrite perfmon_init_alloc by done.
  destruct (acquire_all _ _ _) as [c w'] eqn:Hacq.
  assert (Hlt : ∀ k, k ∈ kinds_of init_order →
            (k < length (counters cleared_context))%nat).
  { intros k Hk. by apply init_order_kinds in Hk. }
  pose proof (acquire_all_log _ _ _ _ _ init_order_NoDup Hlt Hacq)
    as (Htr & _ & Hmsg & Hev).
  pose proof (acquire_all_frame _ _ _ _ _ init_order_NoDup Hlt Hacq)
    as (_ & _ & _ & _ & _ & _ & _ & _ & _ & _ & _ & Hrange).
  exists (set_is_running false c), w'. split; [done|].
  split; [|split; [|split]].
  - rewrite Htr. cbn [os_trace logged with_trace]. by rewrite <- app_assoc.
  - exact Hmsg.
  - intros f Hf. rewrite Hev; [done|]. intros k Hk Hne Heq.
    apply init_order_kinds in Hk.
    change (counter_at c k) with (counter_at (set_is_running false c) k) in *.
    rewrite <- Heq, holds_slot in Hf; done.
  - intros f Hf. apply holds_elim in Hf as (k & Hk & Hfd & Hne).
    change (counter_at (set_is_running false c) k) with (counter_at c k) in Hfd.
    destruct (Hrange k) as [Hneg|(n & Hn & Hfn)]; [by apply init_order_kinds| |].
    + congruence.
    + cbn [os_next_fd logged with_trace] in Hn. rewrite <- Hfd, Hfn. lia.
Qed.

End InitLog.

Section InitProperties.

Lemma last_diagnostic_granted w l : ∀ j msg,
  (∀ i k t cfg, l !! i = Some (k, t, cfg) → answer w (j + i) t cfg = Granted) →
  last_diagnostic w j l msg = msg.
Proof.
  induction l as [|[[k0 t0] cfg0] l IH]; intros j msg H; [done|].
  cbn [last_diagnostic].
  pose proof (H 0%nat k0 t0 cfg0 eq_refl) as H0. rewrite Nat.add_0_r in H0.
  rewrite H0. apply IH. intros i k t cfg Hi.
  replace (S j + i)%nat with (j + S i)%nat by lia. by apply (H (S i) k).
Qed.

Lemma last_diagnostic_refused w l : ∀ j i msg k t cfg e,
  l !! i = Some (k, t, cfg) →
  answer w (j + i) t cfg = Refused e →
  (∀ i' k' t' cfg', (i < i')%nat → l !! i' = Some (k', t', cfg') →
     answer w (j + i') t' cfg' = Granted) →
  last_diagnostic w j l msg = open_failure_message w t cfg e.
Proof.
  induction l as [|[[k0 t0] cfg0] l IH]; intros j i msg k t cfg e Hi Hr Hlater.
  - by rewrite lookup_nil in Hi.
  - cbn [last_diagnostic]. destruct i as [|i].
    + injection Hi as -> -> ->. rewrite Nat.add_0_r in Hr. rewrite Hr.
      apply last_diagnostic_granted. intros i' k' t' cfg' Hi'.
      replace (S j + i')%nat with (j + S i')%nat by lia.
      apply (Hlater (S i') k'); [lia|done].
    + apply (IH (S j) i _ k); [done| |].
      * by replace (S j + i)%nat with (j + S i)%nat by lia.
      * intros i' k' t' cfg' Hlt Hi'.
        replace (S j + i')%nat with (j + S i')%nat by lia.
        apply (Hlater (S i') k'); [lia|done].
Qed.

(** X11: [perfmon_init] makes one allocation and then one [perf_event_open] per
    kind, in the order of the source, each for an event that is created
    disabled and inherited by children, on the calling process (pid 0) and
    any CPU (-1), outside any group; what a call returned is what the slot
    of its kind holds. *)
Theorem init_requests_each_kind_once w :
  os_mem w = true →
  ∃ c w',
    perfmon_init w = (Some c, w') ∧
    os_trace w' =
      os_trace w ++
      SysCalloc true ::
      ((fun e : nat * Z * Z =>
          SysPerfEventOpen
            (mk_request (mk_attr e.1.2 e.2 true false false true) 0 (-1) (-1) 0)
            (fd (counter_at c e.1.1))) <$> init_order).
Proof.
  intros Hm. destruct (perfmon_init_log w Hm) as (c & w' & H & Htr & _).
  by exists c, w'.
Qed.

(** X12: The message buffer after [perfmon_init]: untouched when every request
    is granted, otherwise the message of the last refused request, built
    from that request's type and configuration and the text of the [errno]
    of the refusal. *)
Theorem init_keeps_last_failure w :
  os_mem w = true →
  ∃ c w',
    perfmon_init w = (Some c, w') ∧
    ((∀ j k t cfg, init_order !! j = Some (k, t, cfg) →
        answer w j t cfg = Granted) →
     error_msg w' = error_msg w) ∧
    (∀ j k t cfg e,
       init_order !! j = Some (k, t, cfg) →
       answer w j t cfg = Refused e →
       (∀ j' k' t' cfg', (j < j')%nat → init_order !! j' = Some (k', t', cfg') →
          answer w j' t' cfg' = Granted) →
       error_msg w' =
         String.substring 0 255
           ("Failed to open perf event (type=" +:+ pretty t +:+
            ", config=" +:+ pretty cfg +:+ "): " +:+ os_strerror w e)).
Proof.
  intros Hm. destruct (perfmon_init_log w Hm) as (c & w' & H & _ & Hmsg & _).
  exists c, w'. split; [done|]. split.
  - intros Hall. rewrite Hmsg. by apply last_diagnostic_granted.
  - intros j k t cfg e Hj Hr Hlater. rewrite Hmsg.
    by apply (last_diagnostic_refused w init_order 0 j _ k).
Qed.

(** X10: Opening a session and closing it again leaves the table of open events
    exactly as it was: every descriptor the session acquired is released. *)
Theorem open_close_leaks_nothing w :
  os_mem w = true →
  world_fresh w →
  ∃ c w1 w2,
    perfmon_init w = (Some c, w1) ∧
    perfmon_cleanup (Some c) w1 = (tt, w2) ∧
    os_events w2 = os_events w.
Proof.
  intros Hm Hfresh.
  destruct (perfmon_init_log w Hm) as (c & w1 & H & _ & _ & Hev & Hge).
  exists c, w1. eexists. split; [done|]. split; [apply perfmon_cleanup_spec|].
  apply map_eq. intros f. rewrite close_all_lookup.
  destruct (holds (slots c) f) eqn:Hh.
  - symmetry. apply Hfresh. by apply Hge.
  - by apply Hev.
Qed.

End InitProperties.

(* ===================================================================== *)
(** ** The support probe and the message buffer                           *)
(* ===================================================================== *)

Section Probe.

Lemma same_settings_msg w w' : same_settings w w' → error_msg w' = error_msg w.
Proof. by intros (_&_&_&_&_&_&He). Qed.

Lemma perfmon_is_supported_run w :
  perfmon_is_supported w =
  match os_policy w (os_opens w) probe_request with
  | Granted =>
      (true,
       (sys_close (Z.of_N (os_next_fd w))
          (sys_perf_event_open probe_request w).2).2)
  | Refused e => (false, (sys_perf_event_open probe_request w).2)
  end.
Proof.
  unfold perfmon_is_supported, perf_event_open. fold probe_request.
  rewrite bind_unfold. unfold sys_perf_event_open.
  destruct (os_policy w (os_opens w) probe_request) as [|e]; cbn [fst snd].
  - assert (Hne : (Z.of_N (os_next_fd w) =? -1) = false) by (apply Z.eqb_neq; lia).
    by rewrite Hne, bind_ignore.
  - done.
Qed.

(** X13: The support probe asks the kernel for one disabled hardware cycle
    counter and answers whether it got it.  A descriptor it got is closed
    at once, so the table of open events is as before; the message buffer
    is not written, not even when the probe fails. *)
Theorem support_probe_is_stateless w :
  ∃ w',
    perfmon_is_supported w =
      (match os_policy w (os_opens w) probe_request with
       | Granted => true
       | Refused _ => false
       end, w') ∧
    os_trace w' =
      os_trace w ++
      match os_policy w (os_opens w) probe_request with
      | Granted =>
          [SysPerfEventOpen probe_request (Z.of_N (os_next_fd w));
           SysClose (Z.of_N (os_next_fd w))]
      | Refused _ => [SysPerfEventOpen probe_request (-1)]
      end ∧
    error_msg w' = error_msg w ∧
    (os_events w !! Z.of_N (os_next_fd w) = None → os_events w' = os_events w).
Proof.
  rewrite perfmon_is_supported_run. unfold sys_perf_event_open.
  destruct (os_policy w (os_opens w) probe_request) as [|e];
    (eexists; split; [reflexivity|]).
  - rewrite sys_close_trace. cbn [snd].
    split; [by rewrite logged_trace, <- app_assoc|]. split.
    + by rewrite (same_settings_msg _ _ (sys_close_settings _ _)).
    + intros Hnone. apply map_eq. intros f. rewrite sys_close_lookup. cbn.
      case_decide as Hf; [by subst|]. by rewrite lookup_insert_ne.
  - cbn. by repeat split.
Qed.

Lemma support_probe_is_stateless_aux w :
  ∃ w', perfmon_is_supported w = ((perfmon_is_supported w).1, w') ∧
        error_msg w' = error_msg w.
Proof.
  rewrite perfmon_is_supported_run. unfold sys_perf_event_open.
  destruct (os_policy w (os_opens w) probe_request) as [|e];
    (eexists; split; [reflexivity|]).
  - by rewrite (same_settings_msg _ _ (sys_close_settings _ _)).
  - done.
Qed.

Lemma substring_length_le s : ∀ n m,
  (String.length (String.substring n m s) ≤ m)%nat.
Proof.
  induction s as [|a s IH]; intros n m.
  - destruct n, m; cbn; lia.
  - destruct n as [|n]; destruct m as [|m]; cbn; try lia.
    + specialize (IH 0%nat m). lia.
    + apply (IH n 0%nat).
    + apply IH.
Qed.

Lemma set_error_bounded s w : msg_bounded (set_error s w).2.
Proof. unfold msg_bounded, set_error. cbn. apply substring_length_le. Qed.

Lemma same_settings_bounded w w' :
  same_settings w w' → msg_bounded w → msg_bounded w'.
Proof. intros (_&_&_&_&_&_&He). unfold msg_bounded. by rewrite He. Qed.

Lemma last_diagnostic_bounded w l : ∀ j msg,
  (String.length msg ≤ 255)%nat →
  (String.length (last_diagnostic w j l msg) ≤ 255)%nat.
Proof.
  induction l as [|[[k t] cfg] l IH]; intros j msg Hm; [done|].
  cbn [last_diagnostic]. apply IH.
  destruct (answer w j t cfg); [done|]. apply substring_length_le.
Qed.

Lemma perfmon_init_bounded w : msg_bounded w → msg_bounded (perfmon_init w).2.
Proof.
  intros Hb. destruct (os_mem w) eqn:Hm.
  - destruct (perfmon_init_log w Hm) as (c & w' & -> & _ & Hmsg & _).
    unfold msg_bounded. cbn [snd]. rewrite Hmsg.
    by apply last_diagnostic_bounded.
  - unfold perfmon_init. rewrite bind_unfold. unfold sys_calloc. rewrite Hm.
    cbn [fst snd negb]. rewrite !bind_unfold. unfold ret. cbn [snd].
    apply set_error_bounded.
Qed.

(** X14: The 256-byte message buffer never overflows: if it holds at most 255
    characters before a call of the library it does so after it, whatever
    the function, its arguments and the text [strerror] supplies. *)
Theorem message_buffer_never_overflows w :
  msg_bounded w →
  msg_bounded (perfmon_init w).2 ∧
  msg_bounded (perfmon_is_supported w).2 ∧
  (∀ ctx, msg_bounded (perfmon_start ctx w).2) ∧
  (∀ ctx stats, msg_bounded (perfmon_stop ctx stats w).2) ∧
  (∀ ctx, msg_bounded (perfmon_reset ctx w).2) ∧
  (∀ ctx k, msg_bounded (perfmon_enable_counter ctx k w).2) ∧
  (∀ ctx k, msg_bounded (perfmon_disable_counter ctx k w).2) ∧
  (∀ ctx, msg_bounded (perfmon_cleanup ctx w).2).
Proof.
  intros Hb. split; [by apply perfmon_init_bounded|]. split.
  { destruct (support_probe_is_stateless_aux w) as (w' & -> & He).
    unfold msg_bounded. cbn [snd]. by rewrite He. }
  split; [|split; [|split; [|split; [|split]]]].
  - intros [c|]; [|apply set_error_bounded].
    destruct (is_running c) eqn:Hr.
    + rewrite perfmon_start_running by done. unfold msg_bounded. cbn. lia.
    + rewrite perfmon_start_idle by done. cbn [snd].
      eapply same_settings_bounded; [|exact Hb].
      eapply same_settings_trans; [apply ioctls_settings|apply logged_settings].
  - intros [c|] st; [|apply set_error_bounded].
    destruct (is_running c) eqn:Hr.
    + rewrite perfmon_stop_running by done.
      assert (Hs : same_settings w (stopped c w)).
      { eapply same_settings_trans; [apply logged_settings|apply ioctls_settings]. }
      destruct st as [s0|]; [|by eapply same_settings_bounded].
      destruct (fill_stats _ _) as [s w2] eqn:Hfill. cbn [snd].
      apply fill_stats_spec in Hfill as (_ & Hs2 & _).
      eapply same_settings_bounded; [|exact Hb].
      by eapply same_settings_trans.
    + rewrite perfmon_stop_idle by done. unfold msg_bounded. cbn. lia.
  - intros [c|]; [|apply set_error_bounded].
    rewrite perfmon_reset_spec. cbn [snd].
    eapply same_settings_bounded; [apply ioctls_settings|exact Hb].
  - intros [c|] k; [|apply set_error_bounded]. unfold perfmon_enable_counter.
    destruct (PERFMON_MAX_COUNTERS <=? k)%nat; [apply set_error_bounded|].
    by destruct (negb _).
  - intros [c|] k; [|apply set_error_bounded]. unfold perfmon_disable_counter.
    destruct (PERFMON_MAX_COUNTERS <=? k)%nat; [apply set_error_bounded|done].
  - intros [c|]; [|done]. rewrite perfmon_cleanup_spec. cbn [snd].
    eapply same_settings_bounded; [apply close_all_settings|exact Hb].
Qed.

End Probe.

(* ===================================================================== *)
(** ** Measurements                                                       *)
(* ===================================================================== *)

Section Measurements.

Lemma live_iff s : live s = true ↔ enabled s = true ∧ fd s ≠ -1.
Proof.
  unfold live. rewrite andb_true_iff, negb_true_iff, Z.eqb_neq. done.
Qed.

(** One start/stop cycle around a workload, in full. *)
Lemma measure_cycle c w delta dt st0 :
  is_running c = false →
  let c1 := set_is_running true (set_start_time (now w) c) in
  let w1 := logged SysClockGettime (ioctls (slots c ≫= slot_calls start_block) w) in
  let c2 := set_is_running false (set_end_time (now (workload delta dt w1)) c1) in
  ∃ s w2,
    perfmon_start (Some c) w = ((true, Some c1), w1) ∧
    perfmon_stop (Some c1) (Some st0) (workload delta dt w1) =
      ((true, Some c2, Some s), w2) ∧
    os_events w2 = os_events (stopped c (workload delta dt w1)) ∧
    elapsed_time_sec s = timespec_diff_sec (start_time c2) (end_time c2) ∧
    ∀ k, (k < PERFMON_MAX_COUNTERS)%nat →
      raw_count k s =
      counter_value (os_events (workload delta dt w1)) (fd (counter_at c k)).
Proof.
  intros Hr c1 w1 c2.
  destruct (perfmon_stop_snapshot c1 st0 (workload delta dt w1) eq_refl)
    as (s & w2 & Hstop & Hfill).
  exists s, w2. split; [by apply perfmon_start_idle|]. split; [exact Hstop|].
  apply fill_stats_spec in Hfill as (Hev & _ & _ & Hraw & Hel & _).
  split; [exact Hev|]. split; [exact Hel|].
  intros k Hk. rewrite (Hraw k Hk).
  apply (stopped_counter_value c1).
Qed.

(** The event behind a live slot across the cycle: at zero and counting
    after start, advanced by the workload, stopped with that count. *)
Lemma live_event_cycle c w delta dt k ev :
  (k < PERFMON_MAX_COUNTERS)%nat →
  live (counter_at c k) = true →
  os_events w !! fd (counter_at c k) = Some ev →
  let f := fd (counter_at c k) in
  let w1 := logged SysClockGettime (ioctls (slots c ≫= slot_calls start_block) w) in
  os_events w1 !! f = Some (mk_event (ev_attr ev) 0 true) ∧
  os_events (workload delta dt w1) !! f =
    Some (mk_event (ev_attr ev) (delta f mod 2 ^ 64) true) ∧
  os_events (stopped c (workload delta dt w1)) !! f =
    Some (mk_event (ev_attr ev) (delta f mod 2 ^ 64) false).
Proof.
  intros Hk Hl Hev f w1.
  assert (H1 : os_events w1 !! f = Some (mk_event (ev_attr ev) 0 true)).
  { unfold w1, f. rewrite logged_events.
    rewrite ioctls_slots_lookup by apply start_block_idem.
    by rewrite touches_slot, Hev. }
  assert (H2 : os_events (workload delta dt w1) !! f =
               Some (mk_event (ev_attr ev) (delta f mod 2 ^ 64) true)).
  { rewrite workload_lookup, H1. done. }
  split; [exact H1|]. split; [exact H2|].
  unfold stopped. rewrite ioctls_slots_lookup by apply stop_block_idem.
  rewrite logged_events, H2. unfold f. by rewrite touches_slot.
Qed.

(** X1: A measurement reports what happened between start and stop: for every
    enabled slot whose event is open, the raw count in the snapshot is the
    amount the workload advanced that event by (modulo 2^64), whatever the
    event held before start; the session is Idle again with the same
    slots. *)
Theorem measurement_reports_workload c w delta dt st0 k ev :
  is_running c = false →
  (k < PERFMON_MAX_COUNTERS)%nat →
  enabled (counter_at c k) = true →
  fd (counter_at c k) ≠ -1 →
  os_events w !! fd (counter_at c k) = Some ev →
  ∃ c1 w1 c2 s w2,
    perfmon_start (Some c) w = ((true, Some c1), w1) ∧
    perfmon_stop (Some c1) (Some st0) (workload delta dt w1) =
      ((true, Some c2, Some s), w2) ∧
    raw_count k s = delta (fd (counter_at c k)) mod 2 ^ 64 ∧
    is_running c2 = false ∧
    counters c2 = counters c.
Proof.
  intros Hr Hk He Hf Hev.
  destruct (measure_cycle c w delta dt st0 Hr) as (s & w2 & Hstart & Hstop & _ & _ & Hraw).
  eexists _, _, _, s, w2. split; [exact Hstart|]. split; [exact Hstop|].
  split; [|done].
  assert (Hl : live (counter_at c k) = true) by (by apply live_iff).
  destruct (live_event_cycle c w delta dt k ev Hk Hl Hev) as (_ & H2 & _).
  rewrite (Hraw k Hk). unfold counter_value.
  apply Z.eqb_neq in Hf. by rewrite Hf, H2.
Qed.

(** X2: Measurements on one session do not add up: after a first start/stop
    cycle, a second cycle reports the amount of the second workload only,
    so a session can be reused without a reset in between. *)
Theorem successive_measurements_are_independent
    c w delta1 dt1 delta2 dt2 st1 st2 k ev :
  is_running c = false →
  (k < PERFMON_MAX_COUNTERS)%nat →
  enabled (counter_at c k) = true →
  fd (counter_at c k) ≠ -1 →
  os_events w !! fd (counter_at c k) = Some ev →
  ∃ c1 w1 c2 s1 w2 c3 w3 c4 s2 w4,
    perfmon_start (Some c) w = ((true, Some c1), w1) ∧
    perfmon_stop (Some c1) (Some st1) (workload delta1 dt1 w1) =
      ((true, Some c2, Some s1), w2) ∧
    perfmon_start (Some c2) w2 = ((true, Some c3), w3) ∧
    perfmon_stop (Some c3) (Some st2) (workload delta2 dt2 w3) =
      ((true, Some c4, Some s2), w4) ∧
    raw_count k s1 = delta1 (fd (counter_at c k)) mod 2 ^ 64 ∧
    raw_count k s2 = delta2 (fd (counter_at c k)) mod 2 ^ 64.
Proof.
  intros Hr Hk He Hf Hev.
  assert (Hl : live (counter_at c k) = true) by (by apply live_iff).
  destruct (measure_cycle c w delta1 dt1 st1 Hr)
    as (s1 & w2 & Hstart1 & Hstop1 & Hev2 & _ & Hraw1).
  destruct (live_event_cycle c w delta1 dt1 k ev Hk Hl Hev) as (_ & H12 & H13).
  set (c2 := set_is_running false
               (set_end_time (now (workload delta1 dt1
                  (logged SysClockGettime
                     (ioctls (slots c ≫= slot_calls start_block) w))))
                  (set_is_running true (set_start_time (now w) c)))) in *.
  assert (Hev2' : os_events w2 !! fd (counter_at c2 k) =
                  Some (mk_event (ev_attr ev)
                          (delta1 (fd (counter_at c k)) mod 2 ^ 64) false)).
  { rewrite Hev2. exact H13. }
  destruct (measure_cycle c2 w2 delta2 dt2 st2 eq_refl)
    as (s2 & w4 & Hstart2 & Hstop2 & _ & _ & Hraw2).
  destruct (live_event_cycle c2 w2 delta2 dt2 k _ Hk Hl Hev2') as (_ & H22 & _).
  eexists _, _, c2, s1, w2, _, _, _, s2, w4.
  split; [exact Hstart1|]. split; [exact Hstop1|].
  split; [exact Hstart2|]. split; [exact Hstop2|].
  apply Z.eqb_neq in Hf. split.
  - rewrite (Hraw1 k Hk). unfold counter_value. by rewrite Hf, H12.
  - rewrite (Hraw2 k Hk). unfold counter_value.
    change (fd (counter_at c2 k)) with (fd (counter_at c k)) in *.
    by rewrite Hf, H22.
Qed.

(** X4: Stop with a null record still stops: it reads the clock, disables the
    enabled slots with a handle, reads no counter and leaves the session
    Idle. *)
Theorem stop_without_record c w :
  is_running c = true →
  ∃ c' w',
    perfmon_stop (Some c) None w = ((true, Some c', None), w') ∧
    is_running c' = false ∧
    end_time c' = now w ∧
    counters c' = counters c ∧
    os_trace w' =
      os_trace w ++ [SysClockGettime] ++
      (slots c ≫= fun s =>
         if enabled s && negb (fd s =? -1)
         then [SysIoctl (fd s) PERF_EVENT_IOC_DISABLE]
         else []).
Proof.
  intros Hr. rewrite perfmon_stop_running by done.
  eexists _, _. split; [reflexivity|]. split; [done|]. split; [done|].
  split; [done|]. unfold stopped.
  by rewrite ioctls_trace, logged_trace, slot_calls_entries, <- app_assoc.
Qed.

(** X5: The two timestamps of a measurement are normalised clock readings
    whose difference is exactly the time the workload took, and the elapsed
    time of the snapshot is computed from them. *)
Theorem timestamps_bracket_the_workload c w delta dt st0 :
  is_running c = false →
  ∃ c1 w1 c2 s w2,
    perfmon_start (Some c) w = ((true, Some c1), w1) ∧
    perfmon_stop (Some c1) (Some st0) (workload delta dt w1) =
      ((true, Some c2, Some s), w2) ∧
    (tv_sec (end_time c2) - tv_sec (start_time c2)) * 1000000000 +
      (tv_nsec (end_time c2) - tv_nsec (start_time c2)) = Z.of_N dt ∧
    0 ≤ tv_nsec (start_time c2) < 1000000000 ∧
    0 ≤ tv_nsec (end_time c2) < 1000000000 ∧
    elapsed_time_sec s = timespec_diff_sec (start_time c2) (end_time c2).
Proof.
  intros Hr.
  destruct (measure_cycle c w delta dt st0 Hr) as (s & w2 & Hstart & Hstop & _ & Hel & _).
  eexists _, _, _, s, w2. split; [exact Hstart|]. split; [exact Hstop|].
  split; [|split; [|split; [|exact Hel]]].
  all: cbn [start_time end_time set_is_running set_end_time set_start_time].
  all: unfold now, sys_clock_gettime, workload; cbn [fst tv_sec tv_nsec os_clock_ns with_clock_ns with_events logged with_trace].
  all: rewrite ?(proj1 (proj2 (proj2 (proj2 (proj2 (ioctls_settings _ w)))))).
  all: unfold NSEC_PER_SEC.
  all: pose proof (N.div_mod (os_clock_ns w) 1000000000 ltac:(lia));
       pose proof (N.div_mod (os_clock_ns w + dt) 1000000000 ltac:(lia));
       pose proof (N.mod_lt (os_clock_ns w) 1000000000 ltac:(lia));
       pose proof (N.mod_lt (os_clock_ns w + dt) 1000000000 ltac:(lia)).
  all: generalize dependent (N.div (os_clock_ns w + dt) 1000000000);
       generalize dependent (N.modulo (os_clock_ns w + dt) 1000000000);
       generalize dependent (N.div (os_clock_ns w) 1000000000);
       generalize dependent (N.modulo (os_clock_ns w) 1000000000);
       intros; lia.
Qed.

(** X3: Reset during a measurement restarts the count without stopping it:
    what the events counted before the reset is dropped, they keep counting,
    and the snapshot reports only what the workload did after the reset. *)
Theorem reset_restarts_the_count c w delta1 dt1 delta2 dt2 st0 k ev :
  is_running c = false →
  (k < PERFMON_MAX_COUNTERS)%nat →
  enabled (counter_at c k) = true →
  fd (counter_at c k) ≠ -1 →
  os_events w !! fd (counter_at c k) = Some ev →
  ∃ c1 w1 w2 c2 s w3,
    perfmon_start (Some c) w = ((true, Some c1), w1) ∧
    perfmon_reset (Some c1) (workload delta1 dt1 w1) = ((true, Some c1), w2) ∧
    perfmon_stop (Some c1) (Some st0) (workload delta2 dt2 w2) =
      ((true, Some c2, Some s), w3) ∧
    raw_count k s = delta2 (fd (counter_at c k)) mod 2 ^ 64.
Proof.
  intros Hr Hk He Hf Hev.
  assert (Hl : live (counter_at c k) = true) by (by apply live_iff).
  destruct (live_event_cycle c w delta1 dt1 k ev Hk Hl Hev) as (_ & H2 & _).
  set (c1 := set_is_running true (set_start_time (now w) c)).
  set (w1 := logged SysClockGettime (ioctls (slots c ≫= slot_calls start_block) w)) in *.
  set (w2 := ioctls (slots c1 ≫= slot_calls reset_block) (workload delta1 dt1 w1)).
  assert (H3 : os_events w2 !! fd (counter_at c k) =
               Some (mk_event (ev_attr ev) 0 true)).
  { unfold w2. rewrite ioctls_slots_lookup by apply reset_block_idem.
    change (slots c1) with (slots c). by rewrite touches_slot, H2. }
  assert (H4 : os_events (workload delta2 dt2 w2) !! fd (counter_at c k) =
               Some (mk_event (ev_attr ev) (delta2 (fd (counter_at c k)) mod 2 ^ 64) true)).
  { by rewrite workload_lookup, H3. }
  destruct (perfmon_stop_snapshot c1 st0 (workload delta2 dt2 w2) eq_refl)
    as (s & w3 & Hstop & Hfill).
  apply fill_stats_spec in Hfill as (_ & _ & _ & Hraw & _).
  eexists c1, w1, w2, _, s, w3. split; [by apply perfmon_start_idle|].
  split; [apply perfmon_reset_spec|]. split; [exact Hstop|].
  rewrite (Hraw k Hk), stopped_counter_value.
  change (counter_at (set_end_time _ c1) k) with (counter_at c k).
  unfold counter_value. apply Z.eqb_neq in Hf. by rewrite Hf, H4.
Qed.

End Measurements.

(* ===================================================================== *)
(** ** Enabling and disabling around a measurement                        *)
(* ===================================================================== *)

Section Flags.

(** X6: Disabling a kind while the session is Running does not stop its
    counter: stop skips the slot in its disable loop, so the snapshot still
    reports the workload and the event is left counting after stop. *)
Theorem disable_while_running_keeps_counting c w delta dt st0 k ev :
  is_running c = false →
  ctx_wf c →
  (k < PERFMON_MAX_COUNTERS)%nat →
  enabled (counter_at c k) = true →
  fd (counter_at c k) ≠ -1 →
  os_events w !! fd (counter_at c k) = Some ev →
  (∀ j, (j < PERFMON_MAX_COUNTERS)%nat → j ≠ k →
        fd (counter_at c j) ≠ fd (counter_at c k)) →
  ∃ c1 w1 c2 c3 s w3,
    perfmon_start (Some c) w = ((true, Some c1), w1) ∧
    perfmon_disable_counter (Some c1) k w1 = ((true, Some c2), w1) ∧
    perfmon_stop (Some c2) (Some st0) (workload delta dt w1) =
      ((true, Some c3, Some s), w3) ∧
    raw_count k s = delta (fd (counter_at c k)) mod 2 ^ 64 ∧
    os_events w3 !! fd (counter_at c k) =
      Some (mk_event (ev_attr ev) (delta (fd (counter_at c k)) mod 2 ^ 64) true).
Proof.
  intros Hr Hwf Hk He Hf Hev Hdist.
  assert (Hl : live (counter_at c k) = true) by (by apply live_iff).
  destruct (live_event_cycle c w delta dt k ev Hk Hl Hev) as (_ & H2 & _).
  set (c1 := set_is_running true (set_start_time (now w) c)).
  set (w1 := logged SysClockGettime (ioctls (slots c ≫= slot_calls start_block) w)) in *.
  set (c2 := set_enabled k false c1).
  destruct (perfmon_stop_snapshot c2 st0 (workload delta dt w1) eq_refl)
    as (s & w3 & Hstop & Hfill).
  apply fill_stats_spec in Hfill as (Hev3 & _ & _ & Hraw & _).
  assert (Huntouched : touches (slots c2) (fd (counter_at c k)) = false).
  { apply touches_none. intros j Hj Hlj.
    destruct (decide (j = k)) as [->|Hne].
    - unfold c2 in Hlj. rewrite counter_at_set_enabled_eq in Hlj; [done|].
      unfold ctx_wf in Hwf. cbn. lia.
    - unfold c2. rewrite fd_set_enabled. by apply Hdist. }
  eexists c1, w1, c2, _, s, w3.
  split; [by apply perfmon_start_idle|].
  split; [by apply perfmon_disable_counter_spec|]. split; [exact Hstop|].
  apply Z.eqb_neq in Hf. split.
  - rewrite (Hraw k Hk).
    change (counter_at (set_end_time _ c2) k) with (counter_at c2 k).
    unfold c2 at 2. rewrite fd_set_enabled.
    change (fd (counter_at c1 k)) with (fd (counter_at c k)).
    rewrite stopped_counter_value. unfold counter_value. by rewrite Hf, H2.
  - rewrite Hev3. unfold stopped.
    rewrite ioctls_slots_lookup by apply stop_block_idem.
    by rewrite Huntouched, logged_events, H2.
Qed.

Lemma set_enabled_restore k c :
  enabled (counter_at c k) = true →
  set_enabled k true (set_enabled k false c) = c.
Proof.
  intros He. destruct (decide (k < length (counters c))%nat) as [Hk|Hk].
  - unfold set_enabled at 1. rewrite counter_at_set_enabled_eq by done.
    unfold set_enabled, set_counters. cbn [counters fd start_time end_time is_running].
    rewrite list_insert_insert_eq.
    destruct c as [cs t1 t2 r]. cbn [counters start_time end_time is_running] in *.
    f_equal. apply list_insert_id.
    unfold counter_at in *. cbn [counters] in *.
    destruct (cs !! k) as [[f e]|] eqn:E; [|by apply lookup_ge_None in E; lia].
    cbn in He. cbn. by subst e.
  - by rewrite !counter_at_set_enabled_ge
      by (rewrite ?counter_at_set_enabled_ge by lia; lia).
Qed.

(** X7: Disable followed by enable of an enabled kind with a handle gives the
    context back as it was, and neither call issues a system call or writes
    the message buffer: the flags only steer the next start, stop or
    reset. *)
Theorem disable_then_enable_restores c k w :
  (k < PERFMON_MAX_COUNTERS)%nat →
  enabled (counter_at c k) = true →
  fd (counter_at c k) ≠ -1 →
  ∃ c1,
    perfmon_disable_counter (Some c) k w = ((true, Some c1), w) ∧
    perfmon_enable_counter (Some c1) k w = ((true, Some c), w).
Proof.
  intros Hk He Hf. exists (set_enabled k false c).
  split; [by apply perfmon_disable_counter_spec|].
  rewrite perfmon_enable_counter_spec by done.
  rewrite fd_set_enabled. apply Z.eqb_neq in Hf. rewrite Hf.
  by rewrite set_enabled_restore.
Qed.

(** X8: Invalid arguments are rejected at every entry point before anything
    is done: with a null context start, stop, reset, enable and disable
    return false and cleanup returns at once; with a kind outside the
    enumeration enable and disable return false and leave the context as it
    was.  None of these calls issues a system call or touches an event; the
    only trace is the message in the buffer. *)
Theorem invalid_arguments_are_rejected c k st w :
  (PERFMON_MAX_COUNTERS ≤ k)%nat →
  perfmon_enable_counter (Some c) k w =
    ((false, Some c), with_error_msg "Invalid context or counter type" w) ∧
  perfmon_disable_counter (Some c) k w =
    ((false, Some c), with_error_msg "Invalid context or counter type" w) ∧
  (∀ j, perfmon_enable_counter None j w =
          ((false, None), with_error_msg "Invalid context or counter type" w)) ∧
  (∀ j, perfmon_disable_counter None j w =
          ((false, None), with_error_msg "Invalid context or counter type" w)) ∧
  perfmon_start None w = ((false, None), with_error_msg "Invalid context" w) ∧
  perfmon_stop None st w = ((false, None, st), with_error_msg "Invalid context" w) ∧
  perfmon_reset None w = ((false, None), with_error_msg "Invalid context" w) ∧
  perfmon_cleanup None w = (tt, w).
Proof.
  intros Hk. apply Nat.leb_le in Hk.
  unfold perfmon_enable_counter, perfmon_disable_counter. by rewrite Hk.
Qed.

End Flags.

(* ===================================================================== *)
(** ** A session without any counter                                      *)
(* ===================================================================== *)

Section Degraded.

Lemma bind_all_nil {A B} (g : A → list B) (l : list A) :
  (∀ x, x ∈ l → g x = []) → l ≫= g = [].
Proof.
  induction l as [|a l IH]; intros H; [done|].
  rewrite bind_cons, (H a) by (by left). apply IH. intros x Hx. apply H. by right.
Qed.

Lemma slots_elem c s :
  s ∈ slots c → ∃ k, (k < PERFMON_MAX_COUNTERS)%nat ∧ s = counter_at c k.
Proof.
  intros H. apply list_elem_of_fmap in H as (j & -> & Hj).
  apply elem_of_seq in Hj. exists j. split; [lia|done].
Qed.

(** X15: When the kernel refuses every request, the session still works: start
    and stop succeed and issue nothing but their clock readings, the
    snapshot has every raw count and every derived metric at zero, and
    closing the session issues no system call at all. *)
Theorem session_without_counters_degrades_silently w delta dt st0 :
  os_mem w = true →
  (∀ j k t cfg, init_order !! j = Some (k, t, cfg) →
     ∃ e, answer w j t cfg = Refused e) →
  ∃ c w1 c1 w2 c2 s w3,
    perfmon_init w = (Some c, w1) ∧
    perfmon_start (Some c) w1 = ((true, Some c1), w2) ∧
    os_trace w2 = os_trace w1 ++ [SysClockGettime] ∧
    perfmon_stop (Some c1) (Some st0) (workload delta dt w2) =
      ((true, Some c2, Some s), w3) ∧
    os_trace w3 = os_trace w2 ++ [SysClockGettime] ∧
    (∀ k, (k < PERFMON_MAX_COUNTERS)%nat → raw_count k s = 0) ∧
    insn_per_cycle s = Double.zero ∧
    branch_miss_rate s = Double.zero ∧
    cache_miss_rate s = Double.zero ∧
    perfmon_cleanup (Some c2) w3 = (tt, w3).
Proof.
  intros Hm Hall.
  destruct (perfmon_init_spec w Hm) as (c & w1 & Hinit & _ & Hrun & Hout).
  assert (Hnone : ∀ k, (k < PERFMON_MAX_COUNTERS)%nat →
            counter_at c k = mk_counter (-1) false).
  { intros k Hk. destruct (init_order_index k Hk) as (j & t & cfg & Hj).
    specialize (Hout j k t cfg Hj). destruct (Hall j k t cfg Hj) as [e He].
    by rewrite He in Hout. }
  assert (Hslots : ∀ s, s ∈ slots c → s = mk_counter (-1) false).
  { intros s Hs. apply slots_elem in Hs as (k & Hk & ->). by apply Hnone. }
  assert (Hcalls : ∀ blk, slots c ≫= slot_calls blk = []).
  { intros blk. apply bind_all_nil. intros s Hs. by rewrite (Hslots s Hs). }
  assert (Hreads : slots c ≫= read_entry = []).
  { apply bind_all_nil. intros s Hs. by rewrite (Hslots s Hs). }
  set (c1 := set_is_running true (set_start_time (now w1) c)).
  set (w2 := logged SysClockGettime (ioctls (slots c ≫= slot_calls start_block) w1)).
  destruct (perfmon_stop_snapshot c1 st0 (workload delta dt w2) eq_refl)
    as (s & w3 & Hstop & Hfill).
  apply fill_stats_spec in Hfill as (_ & _ & Htr & Hraw & _ & Hipc & Hbmr & Hcmr).
  assert (Hzero : ∀ k, (k < PERFMON_MAX_COUNTERS)%nat → raw_count k s = 0).
  { intros k Hk. rewrite (Hraw k Hk).
    change (counter_at (set_end_time _ c1) k) with (counter_at c k).
    by rewrite (Hnone k Hk). }
  eexists c, w1, c1, w2, _, s, w3. split; [exact Hinit|].
  split; [by apply perfmon_start_idle|]. split.
  { unfold w2. by rewrite Hcalls. }
  split; [exact Hstop|]. split.
  { rewrite Htr. change (slots (set_end_time _ c1)) with (slots c).
    rewrite Hreads, app_nil_r. unfold stopped.
    change (slots c1) with (slots c). by rewrite Hcalls. }
  split; [exact Hzero|].
  pose proof (Hzero PERFMON_CYCLES ltac:(unfold PERFMON_CYCLES, PERFMON_MAX_COUNTERS; lia)) as Hc.
  pose proof (Hzero PERFMON_BRANCHES ltac:(unfold PERFMON_BRANCHES, PERFMON_MAX_COUNTERS; lia)) as Hb.
  pose proof (Hzero PERFMON_CACHE_REFERENCES
                ltac:(unfold PERFMON_CACHE_REFERENCES, PERFMON_MAX_COUNTERS; lia)) as Hcr.
  cbn in Hc, Hb, Hcr.
  split; [by rewrite Hipc, Hc|]. split; [by rewrite Hbmr, Hb|].
  split; [by rewrite Hcmr, Hcr|].
  rewrite perfmon_cleanup_spec. f_equal.
  change (slots (set_is_running false (set_end_time _ c1))) with (slots c).
  assert (Hfold : ∀ l v, (∀ s, s ∈ l → s = mk_counter (-1) false) →
            foldl (fun w s => close_step s w) v l = v).
  { induction l as [|a l IH]; intros v Hl; [done|]. cbn [foldl].
    rewrite (Hl a) by (by left). cbn. apply IH. intros s0 Hs0. apply Hl. by right. }
  by apply Hfold.
Qed.

End Degraded.

(* ===================================================================== *)
(** ** The further properties at concrete environments                    *)
(* ===================================================================== *)

Section ConcreteFurther.

(** The five facts about the cycles slot of the granting session. *)
Ltac cycles_slot_facts H1 H2 H3 H4 H5 :=
  assert (H1 : is_running c0 = false) by (vm_compute; reflexivity);
  assert (H2 : (PERFMON_CYCLES < PERFMON_MAX_COUNTERS)%nat)
    by (unfold PERFMON_CYCLES, PERFMON_MAX_COUNTERS; lia);
  assert (H3 : enabled (counter_at c0 PERFMON_CYCLES) = true)
    by (vm_compute; reflexivity);
  assert (H4 : fd (counter_at c0 PERFMON_CYCLES) ≠ -1)
    by (vm_compute; discriminate);
  assert (H5 : os_events v0 !! fd (counter_at c0 PERFMON_CYCLES) = Some cycles_event)
    by (vm_compute; reflexivity).

Lemma measurement_reports_workload_witness :
  ∃ c1 w1 c2 s w2,
    perfmon_start (Some c0) v0 = ((true, Some c1), w1) ∧
    perfmon_stop (Some c1) (Some blank_stats) (workload (fun _ => 5) 1000 w1) =
      ((true, Some c2, Some s), w2) ∧
    raw_count PERFMON_CYCLES s = 5.
Proof.
  cycles_slot_facts H1 H2 H3 H4 H5.
  destruct (measurement_reports_workload c0 v0 (fun _ => 5) 1000 blank_stats
              PERFMON_CYCLES cycles_event H1 H2 H3 H4 H5)
    as (c1 & w1 & c2 & s & w2 & Hstart & Hstop & Hraw & _).
  exists c1, w1, c2, s, w2. split; [exact Hstart|]. split; [exact Hstop|].
  exact Hraw.
Defined.

Lemma successive_measurements_are_independent_witness :
  ∃ s1 s2 : perfmon_stats_t,
    raw_count PERFMON_CYCLES s1 = 5 ∧ raw_count PERFMON_CYCLES s2 = 7.
Proof.
  cycles_slot_facts H1 H2 H3 H4 H5.
  destruct (successive_measurements_are_independent c0 v0
              (fun _ => 5) 1000 (fun _ => 7) 1000 blank_stats blank_stats
              PERFMON_CYCLES cycles_event H1 H2 H3 H4 H5)
    as (c1 & w1 & c2 & s1 & w2 & c3 & w3 & c4 & s2 & w4 & _ & _ & _ & _ & Hr1 & Hr2).
  exists s1, s2. split; [exact Hr1|exact Hr2].
Defined.

Lemma reset_restarts_the_count_witness :
  ∃ c1 w1 w2 c2 s w3,
    perfmon_start (Some c0) v0 = ((true, Some c1), w1) ∧
    perfmon_reset (Some c1) (workload (fun _ => 5) 1000 w1) = ((true, Some c1), w2) ∧
    perfmon_stop (Some c1) (Some blank_stats) (workload (fun _ => 7) 1000 w2) =
      ((true, Some c2, Some s), w3) ∧
    raw_count PERFMON_CYCLES s = 7.
Proof.
  cycles_slot_facts H1 H2 H3 H4 H5.
  destruct (reset_restarts_the_count c0 v0 (fun _ => 5) 1000 (fun _ => 7) 1000
              blank_stats PERFMON_CYCLES cycles_event H1 H2 H3 H4 H5)
    as (c1 & w1 & w2 & c2 & s & w3 & Hstart & Hreset & Hstop & Hraw).
  exists c1, w1, w2, c2, s, w3. split; [exact Hstart|]. split; [exact Hreset|].
  split; [exact Hstop|exact Hraw].
Defined.

Lemma stop_without_record_witness :
  is_running (started granting_world).1 = true ∧
  ∃ c' w',
    perfmon_stop (Some (started granting_world).1) None (started granting_world).2 =
      ((true, Some c', None), w') ∧
    is_running c' = false.
Proof.
  assert (Hr : is_running (started granting_world).1 = true)
    by (vm_compute; reflexivity).
  split; [exact Hr|].
  destruct (stop_without_record _ (started granting_world).2 Hr)
    as (c' & w' & H & Hrun & _).
  exists c', w'. split; [exact H|exact Hrun].
Defined.

Lemma timestamps_bracket_the_workload_witness :
  ∃ c2 : perfmon_context,
    (tv_sec (end_time c2) - tv_sec (start_time c2)) * 1000000000 +
      (tv_nsec (end_time c2) - tv_nsec (start_time c2)) = Z.of_N 1500000000.
Proof.
  cycles_slot_facts H1 H2 H3 H4 H5.
  destruct (timestamps_bracket_the_workload c0 v0 (fun _ => 5) 1500000000
              blank_stats H1)
    as (c1 & w1 & c2 & s & w2 & _ & _ & Hdiff & _).
  exists c2. exact Hdiff.
Defined.

Lemma disable_while_running_keeps_counting_witness :
  ∃ c1 w1 c2 c3 s w3,
    perfmon_start (Some c0) v0 = ((true, Some c1), w1) ∧
    perfmon_disable_counter (Some c1) PERFMON_CYCLES w1 = ((true, Some c2), w1) ∧
    perfmon_stop (Some c2) (Some blank_stats) (workload (fun _ => 5) 1000 w1) =
      ((true, Some c3, Some s), w3) ∧
    raw_count PERFMON_CYCLES s = 5.
Proof.
  cycles_slot_facts H1 H2 H3 H4 H5.
  assert (Hwf : ctx_wf c0) by (vm_compute; reflexivity).
  assert (Hdist : ∀ j, (j < PERFMON_MAX_COUNTERS)%nat → j ≠ PERFMON_CYCLES →
            fd (counter_at c0 j) ≠ fd (counter_at c0 PERFMON_CYCLES)).
  { intros j Hj Hne. unfold PERFMON_MAX_COUNTERS in Hj. unfold PERFMON_CYCLES in Hne.
    do 13 (destruct j as [|j]; [first [congruence | vm_compute; discriminate]|]).
    lia. }
  destruct (disable_while_running_keeps_counting c0 v0 (fun _ => 5) 1000 blank_stats
              PERFMON_CYCLES cycles_event H1 Hwf H2 H3 H4 H5 Hdist)
    as (c1 & w1 & c2 & c3 & s & w3 & Hstart & Hdis & Hstop & Hraw & _).
  exists c1, w1, c2, c3, s, w3. split; [exact Hstart|]. split; [exact Hdis|].
  split; [exact Hstop|exact Hraw].
Defined.

Lemma disable_then_enable_restores_witness :
  ∃ c1,
    perfmon_disable_counter (Some c0) PERFMON_CYCLES v0 = ((true, Some c1), v0) ∧
    perfmon_enable_counter (Some c1) PERFMON_CYCLES v0 = ((true, Some c0), v0).
Proof.
  cycles_slot_facts H1 H2 H3 H4 H5.
  exact (disable_then_enable_restores c0 PERFMON_CYCLES v0 H2 H3 H4).
Defined.

Lemma invalid_arguments_are_rejected_witness :
  perfmon_enable_counter (Some c0) PERFMON_MAX_COUNTERS v0 =
    ((false, Some c0), with_error_msg "Invalid context or counter type" v0).
Proof.
  apply (invalid_arguments_are_rejected c0 PERFMON_MAX_COUNTERS None v0).
  unfold PERFMON_MAX_COUNTERS. lia.
Defined.

Lemma cleanup_closes_every_handle_witness :
  perfmon_init granting_world = (Some c0, v0) ∧
  ∃ w', perfmon_cleanup (Some c0) v0 = (tt, w') ∧ NoDup (handles c0) ∧
        os_events w' !! 3 = None.
Proof.
  assert (Hinit : perfmon_init granting_world = (Some c0, v0))
    by (vm_compute; reflexivity).
  split; [exact Hinit|].
  destruct (cleanup_closes_every_handle granting_world c0 v0 v0 Hinit)
    as (w' & H & _ & Hnd & Hclosed & _).
  exists w'. split; [exact H|]. split; [exact Hnd|].
  apply (Hclosed PERFMON_CYCLES).
  - unfold PERFMON_CYCLES, PERFMON_MAX_COUNTERS. lia.
  - vm_compute. discriminate.
Defined.

Lemma open_close_leaks_nothing_witness :
  ∃ c w1 w2,
    perfmon_init granting_world = (Some c, w1) ∧
    perfmon_cleanup (Some c) w1 = (tt, w2) ∧
    os_events w2 = os_events granting_world.
Proof.
  apply (open_close_leaks_nothing granting_world); [reflexivity|].
  intros f _. apply lookup_empty.
Defined.

Lemma init_requests_each_kind_once_witness :
  ∃ c w', perfmon_init unsupported_world = (Some c, w') ∧
          length (os_trace w') = 14%nat.
Proof.
  destruct (init_requests_each_kind_once unsupported_world eq_refl)
    as (c & w' & H & Htr).
  exists c, w'. split; [exact H|]. rewrite Htr. reflexivity.
Defined.

Lemma init_keeps_last_failure_witness :
  ∃ c w', perfmon_init refusing_world = (Some c, w') ∧
          error_msg w' =
            "Failed to open perf event (type=3, config=65540): Permission denied".
Proof.
  destruct (init_keeps_last_failure refusing_world eq_refl)
    as (c & w' & H & _ & Hlast).
  exists c, w'. split; [exact H|].
  rewrite (Hlast 12%nat PERFMON_ITLB_MISSES PERF_TYPE_HW_CACHE 65540 13).
  - vm_compute. reflexivity.
  - reflexivity.
  - reflexivity.
  - intros j' k' t' cfg' Hlt Hj'. apply lookup_lt_Some in Hj'. cbn in Hj'. lia.
Defined.

Lemma support_probe_is_stateless_witness :
  ∃ w', perfmon_is_supported granting_world = (true, w') ∧
        os_events w' = os_events granting_world ∧
        error_msg w' = error_msg granting_world.
Proof.
  destruct (support_probe_is_stateless granting_world) as (w' & H & _ & Hmsg & Hev).
  exists w'. split; [exact H|]. split; [|exact Hmsg].
  apply Hev. apply lookup_empty.
Defined.

Lemma message_buffer_never_overflows_witness :
  msg_bounded (perfmon_init refusing_world).2.
Proof.
  assert (Hb : msg_bounded refusing_world) by (vm_compute; lia).
  destruct (message_buffer_never_overflows refusing_world Hb) as (H & _).
  exact H.
Defined.

Lemma session_without_counters_degrades_silently_witness :
  ∃ c w1 c1 w2 c2 s w3,
    perfmon_init refusing_world = (Some c, w1) ∧
    perfmon_start (Some c) w1 = ((true, Some c1), w2) ∧
    perfmon_stop (Some c1) (Some blank_stats) (workload (fun _ => 5) 1000 w2) =
      ((true, Some c2, Some s), w3) ∧
    (∀ k, (k < PERFMON_MAX_COUNTERS)%nat → raw_count k s = 0) ∧
    perfmon_cleanup (Some c2) w3 = (tt, w3).
Proof.
  destruct (session_without_counters_degrades_silently refusing_world
              (fun _ => 5) 1000 blank_stats eq_refl)
    as (c & w1 & c1 & w2 & c2 & s & w3 & Hinit & Hstart & _ & Hstop & _ & Hzero
        & _ & _ & _ & Hclean).
  { intros j k t cfg _. by exists 13. }
  exists c, w1, c1, w2, c2, s, w3. split; [exact Hinit|]. split; [exact Hstart|].
  split; [exact Hstop|]. split; [exact Hzero|exact Hclean].
Defined.

End ConcreteFurther.
